(** * A shallow embedding of the OpenFlow NAT controller

    The development follows [src/nat_controller.py] (class [NatController]).
    Python dictionaries are finite maps ([gmap]) keyed by strings, the
    controller object is a record threaded through a small state-and-exception
    monad, and every call to [switch.send_msg] is appended to a log of the
    messages handed to the switch, in the order the calls are made. *)

From Stdlib Require Import ZArith Lia.
From stdpp Require Import gmap strings list fin_maps pretty.

Local Open Scope Z_scope.

(** ** Frames *)

(** Link addresses and network addresses are the strings Ryu hands out
    (["aa:bb:cc:dd:ee:ff"], ["10.0.0.1"]). *)
Abbreviation mac := string (only parsing).
Abbreviation ip := string (only parsing).

Record ethernet := Ethernet {
  eth_dst : mac;
  eth_src : mac;
  ethertype : Z
}.

Record arp := Arp {
  hwtype : Z;
  proto : Z;
  hlen : Z;
  plen : Z;
  opcode : Z;
  src_mac : mac;
  src_ip : ip;
  dst_mac : mac;
  dst_ip : ip
}.

Record ipv4 := Ipv4 {
  ip_src : ip;
  ip_dst : ip;
  ip_proto : Z
}.

Record tcp := Tcp { tcp_src_port : Z; tcp_dst_port : Z }.
Record udp := Udp { udp_src_port : Z; udp_dst_port : Z }.

(** The protocol headers Ryu's [packet.Packet] parses above the Ethernet
    header. *)
Inductive header :=
  | HArp (a : arp)
  | HIpv4 (h : ipv4)
  | HTcp (t : tcp)
  | HUdp (u : udp).

(** A parsed frame: [data_packet[0]] is the Ethernet header, [upper] holds
    [data_packet[1]], [data_packet[2]], ... *)
Record Packet := mkPacket {
  eth : ethernet;
  upper : list header
}.

(** The OpenFlow packet-in message [event.msg]: [datapath] is the switch
    it came from, [in_port] is [of_packet.match['in_port']], and [data] the
    frame.  [packet.Packet(data=of_packet.data)] is the frame itself. *)
Record PacketIn := mkPacketIn {
  datapath : Z;
  in_port : Z;
  data : Packet
}.

#[global] Instance ethernet_eq_dec : EqDecision ethernet.
Proof. solve_decision. Defined.
#[global] Instance arp_eq_dec : EqDecision arp.
Proof. solve_decision. Defined.
#[global] Instance ipv4_eq_dec : EqDecision ipv4.
Proof. solve_decision. Defined.
#[global] Instance tcp_eq_dec : EqDecision tcp.
Proof. solve_decision. Defined.
#[global] Instance udp_eq_dec : EqDecision udp.
Proof. solve_decision. Defined.
#[global] Instance header_eq_dec : EqDecision header.
Proof. solve_decision. Defined.
#[global] Instance Packet_eq_dec : EqDecision Packet.
Proof. solve_decision. Defined.
#[global] Instance PacketIn_eq_dec : EqDecision PacketIn.
Proof. solve_decision. Defined.

(** ** Constants of Ryu and OpenFlow 1.2 used by the controller *)

Definition ETH_TYPE_IP : Z := 2048.
Definition ETH_TYPE_ARP : Z := 2054.
Definition ETH_TYPE_IPV6 : Z := 34525.
Definition IPPROTO_ICMP : Z := 1.
Definition IPPROTO_TCP : Z := 6.
Definition IPPROTO_UDP : Z := 17.
Definition ARP_REQUEST : Z := 1.
Definition ARP_REPLY : Z := 2.
(** [ofproto_v1_2.OFPP_IN_PORT] and [ofproto_v1_2.OFPP_FLOOD]. *)
Definition OFPP_IN_PORT : Z := 4294967288.
Definition OFPP_FLOOD : Z := 4294967291.

(** ** Messages sent to the switch *)

Inductive ofp_field :=
  | F_eth_src (m : mac)
  | F_eth_dst (m : mac)
  | F_ipv4_src (a : ip)
  | F_ipv4_dst (a : ip)
  | F_tcp_src (p : Z)
  | F_tcp_dst (p : Z)
  | F_udp_src (p : Z)
  | F_udp_dst (p : Z).

Inductive action :=
  | OFPActionDecNwTtl
  | OFPActionSetField (f : ofp_field)
  | OFPActionOutput (port : Z).

(** The transport part of a match: absent (ICMP), [tcp_src]/[tcp_dst] or
    [udp_src]/[udp_dst]. *)
Inductive match_ports :=
  | NoPorts
  | TcpPorts (sport dport : Z)
  | UdpPorts (sport dport : Z).

Record OFPMatch := mkMatch {
  m_eth_type : Z;
  m_ipv4_src : ip;
  m_ipv4_dst : ip;
  m_ip_proto : Z;
  m_ports : match_ports
}.

(** A message is serialised by [send_msg] at the moment of the call, so a
    logged message holds the action list as it was then. *)
Inductive Msg :=
  | OFPPacketOut (dp : Z) (inport : Z) (actions : list action) (payload : Packet)
  | OFPFlowMod (dp : Z) (mtch : OFPMatch) (actions : list action).

#[global] Instance ofp_field_eq_dec : EqDecision ofp_field.
Proof. solve_decision. Defined.
#[global] Instance action_eq_dec : EqDecision action.
Proof. solve_decision. Defined.
#[global] Instance match_ports_eq_dec : EqDecision match_ports.
Proof. solve_decision. Defined.
#[global] Instance OFPMatch_eq_dec : EqDecision OFPMatch.
Proof. solve_decision. Defined.
#[global] Instance Msg_eq_dec : EqDecision Msg.
Proof. solve_decision. Defined.

(** ** Controller state *)

(** An element of a pending queue: [(of_packet, match, actions)]. *)
Abbreviation entry := (PacketIn * option OFPMatch * option (list action))%type.

(** The fields set by [__init__] ([ports_in_use] is never read or written
    afterwards and is left out), and [sent], the messages given to
    [switch.send_msg] so far, oldest first. *)
Record NatController := mkNat {
  arp_table : gmap string mac;
  switch_table : gmap string Z;
  pending_arp : gmap string (list entry);
  nat_port : Z;
  nat_translation : gmap string (ip * Z);
  sent : list Msg
}.

Definition init : NatController :=
  {| arp_table := ∅; switch_table := ∅; pending_arp := ∅;
     nat_port := 3000; nat_translation := ∅; sent := [] |}.

Definition set_arp_table (f : gmap string mac → gmap string mac) (s : NatController) :=
  {| arp_table := f (arp_table s); switch_table := switch_table s;
     pending_arp := pending_arp s; nat_port := nat_port s;
     nat_translation := nat_translation s; sent := sent s |}.

Definition set_switch_table (f : gmap string Z → gmap string Z) (s : NatController) :=
  {| arp_table := arp_table s; switch_table := f (switch_table s);
     pending_arp := pending_arp s; nat_port := nat_port s;
     nat_translation := nat_translation s; sent := sent s |}.

Definition set_pending_arp
    (f : gmap string (list entry) → gmap string (list entry)) (s : NatController) :=
  {| arp_table := arp_table s; switch_table := switch_table s;
     pending_arp := f (pending_arp s); nat_port := nat_port s;
     nat_translation := nat_translation s; sent := sent s |}.

Definition set_nat_port (f : Z → Z) (s : NatController) :=
  {| arp_table := arp_table s; switch_table := switch_table s;
     pending_arp := pending_arp s; nat_port := f (nat_port s);
     nat_translation := nat_translation s; sent := sent s |}.

Definition set_nat_translation
    (f : gmap string (ip * Z) → gmap string (ip * Z)) (s : NatController) :=
  {| arp_table := arp_table s; switch_table := switch_table s;
     pending_arp := pending_arp s; nat_port := nat_port s;
     nat_translation := f (nat_translation s); sent := sent s |}.

Definition set_sent (f : list Msg → list Msg) (s : NatController) :=
  {| arp_table := arp_table s; switch_table := switch_table s;
     pending_arp := pending_arp s; nat_port := nat_port s;
     nat_translation := nat_translation s; sent := f (sent s) |}.

(** ** The monad of handlers: state, and Python exceptions *)

Inductive exn :=
  | KeyError (key : string)
  | UnboundLocalError (var : string)
  | AttributeError (attr : string)
  | IndexError.

Inductive outcome (A : Type) :=
  | Normal (a : A)
  | Raised (e : exn).
Arguments Normal {A} a.
Arguments Raised {A} e.

(** A handler takes the controller and gives back how it ended together with
    the controller as it left it: what was written before an exception stays
    written. *)
Definition M (A : Type) : Type := NatController → outcome A * NatController.

#[global] Instance M_ret : MRet M := λ A a s, (Normal a, s).

#[global] Instance M_bind : MBind M := λ A B k c s,
  match c s with
  | (Normal a, s') => k a s'
  | (Raised e, s') => (Raised e, s')
  end.

Definition raise {A} (e : exn) : M A := λ s, (Raised e, s).
Definition gets {A} (f : NatController → A) : M A := λ s, (Normal (f s), s).
Definition modify (f : NatController → NatController) : M unit := λ s, (Normal tt, f s).

(** [d[k]] for a dictionary field [d] of the controller. *)
Definition dict_get {V} (d : NatController → gmap string V) (k : string) : M V :=
  λ s, match d s !! k with
       | Some v => (Normal v, s)
       | None => (Raised (KeyError k), s)
       end.

(** [k in d]. *)
Definition dict_mem {V} (d : NatController → gmap string V) (k : string) : M bool :=
  gets (λ s, bool_decide (is_Some (d s !! k))).

(** Reading a local variable that may not have been assigned. *)
Definition local {A} (var : string) (v : option A) : M A :=
  match v with
  | Some a => mret a
  | None => raise (UnboundLocalError var)
  end.

(** [str] of a Python integer. *)
Definition str (n : Z) : string := pretty n.

(** ** Configuration *)

(** The module [nat_config] is not part of the sources; its values are taken
    as parameters.  [nat_internal_net] stands for membership in
    [ipaddress.ip_network(config.nat_internal_net)]. *)
Record nat_config := mkConfig {
  nat_external_mac : mac;
  nat_internal_mac : mac;
  nat_external_ip : ip;
  nat_internal_ip : ip;
  nat_gateway_ip : ip;
  nat_internal_net : ip → bool
}.

(** ** The controller *)

Section Controller.

Variable config : nat_config.

(** *** Reading a frame *)

Definition is_arp (packet : Packet) : bool :=
  bool_decide (ethertype (eth packet) = 2054).
Definition is_ipv4 (packet : Packet) : bool :=
  bool_decide (ethertype (eth packet) = 2048).
Definition is_ipv6 (packet : Packet) : bool :=
  bool_decide (ethertype (eth packet) = 34525).
Definition is_internal_network (a : ip) : bool := nat_internal_net config a.

(** [data_packet[1]] read as an ARP header: an [IndexError] when the frame
    has nothing above Ethernet, an [AttributeError] when what is there has
    no ARP fields. *)
Definition arp_header (packet : Packet) (attr : string) : M arp :=
  match upper packet with
  | HArp a :: _ => mret a
  | _ :: _ => raise (AttributeError attr)
  | [] => raise IndexError
  end.

(** [data_packet.get_protocol(cls)]: the first header of the class, or
    [None]. *)
Definition get_ipv4 (packet : Packet) : option ipv4 :=
  head (omap (λ h, match h with HIpv4 i => Some i | _ => None end) (upper packet)).
Definition get_tcp (packet : Packet) : option tcp :=
  head (omap (λ h, match h with HTcp t => Some t | _ => None end) (upper packet)).
Definition get_udp (packet : Packet) : option udp :=
  head (omap (λ h, match h with HUdp u => Some u | _ => None end) (upper packet)).

(** Reading attribute [attr] of what [get_protocol] returned: an
    [AttributeError] on [None]. *)
Definition attr_of {A} (attr : string) (o : option A) : M A :=
  match o with
  | Some a => mret a
  | None => raise (AttributeError attr)
  end.

(** *** Sending *)

(** [switch.send_msg]: the message joins the log. *)
Definition emit (msgs : list Msg) (s : NatController) : NatController :=
  set_sent (λ l, l ++ msgs) s.

Definition send_msg (m : Msg) : M unit := modify (emit [m]).

(** [send_packet] appends the output action to the list it was given, in
    place; the caller still holds that list, so the list after the call is
    returned. *)
Definition send_packet (payload : Packet) (of_packet : PacketIn) (port : option Z)
    (actions : option (list action)) : M (list action) :=
  let actions := match actions with Some l => l | None => [] end in
  let actions :=
    match port with
    | Some p => actions ++ [OFPActionOutput p]
    | None => actions
    end in
  send_msg (OFPPacketOut (datapath of_packet) (in_port of_packet) actions payload);;
  mret actions.

Definition add_flow (switch : Z) (mtch : OFPMatch) (actions : list action) : M unit :=
  send_msg (OFPFlowMod switch mtch actions).

(** *** Address learning *)

Definition switch_learn (of_packet : PacketIn) (data_packet : Packet) : M unit :=
  let in_port := in_port of_packet in
  let src_mac := eth_src (eth data_packet) in
  modify (set_switch_table <[src_mac := in_port]>).

(** Lines 73-76 of [switch_forward] (and 355-358 of
    [handle_incoming_internal_msg]): the learned port, or flood. *)
Definition switch_out_port (s : NatController) (dst_mac : mac) : Z :=
  match switch_table s !! dst_mac with
  | Some p => p
  | None => OFPP_FLOOD
  end.

Definition switch_forward (of_packet : PacketIn) (data_packet : Packet)
    (actions : option (list action)) : M (list action) :=
  let dst_mac := eth_dst (eth data_packet) in
  dst_port ← gets (λ s, switch_out_port s dst_mac);
  send_packet (data of_packet) of_packet (Some dst_port) actions.

(** *** Address resolution *)

Definition router_next_hop (src_mac dst_mac : mac) : list action :=
  [OFPActionDecNwTtl;
   OFPActionSetField (F_eth_src src_mac);
   OFPActionSetField (F_eth_dst dst_mac)].

(** The broadcast frame built by [send_arp_request]. *)
Definition arp_request_frame (target : ip) : Packet :=
  let src_mac :=
    if decide (target = nat_gateway_ip config)
    then nat_external_mac config else nat_internal_mac config in
  let src_ip :=
    if decide (target = nat_gateway_ip config)
    then nat_external_ip config else nat_internal_ip config in
  {| eth := {| eth_dst := "ff:ff:ff:ff:ff:ff"; eth_src := src_mac;
               ethertype := ETH_TYPE_ARP |};
     upper := [HArp {| hwtype := 1; proto := ETH_TYPE_IP; hlen := 6; plen := 4;
                       opcode := ARP_REQUEST; src_mac := src_mac; src_ip := src_ip;
                       dst_mac := "00:00:00:00:00:00"; dst_ip := target |}] |}.

Definition send_arp_request (target : ip) (of_packet : PacketIn)
    (mtch : option OFPMatch) (actions : option (list action)) : M unit :=
  let entry : entry := (of_packet, mtch, actions) in
  queued ← gets (λ s, pending_arp s !! target);
  match queued with
  | Some q =>
      modify (set_pending_arp <[target := q ++ [entry]]>)
  | None =>
      modify (set_pending_arp <[target := [entry]]>);;
      send_packet (arp_request_frame target) of_packet (Some OFPP_FLOOD) None;;
      mret tt
  end.

Definition router_forward (of_packet : PacketIn) (data_packet : Packet) (next_ip : ip)
    (mtch : option OFPMatch) (extra_actions : option (list action)) : M unit :=
  known ← dict_mem arp_table next_ip;
  if negb known then
    send_arp_request next_ip of_packet mtch extra_actions
  else
    dst_mac ← dict_get arp_table next_ip;
    let src_mac :=
      if decide (next_ip = nat_gateway_ip config)
      then nat_external_mac config else nat_internal_mac config in
    let actions := router_next_hop src_mac dst_mac in
    let actions :=
      match extra_actions with
      | None | Some [] => actions
      | Some extra => actions ++ extra
      end in
    actions ← switch_forward of_packet data_packet (Some actions);
    match mtch with
    | Some m => add_flow (datapath of_packet) m actions
    | None => mret tt
    end.

(** The reply frame built by [send_arp_reply] for the owned address
    [arp_dst_ip] with link address [arp_dst_mac]. *)
Definition arp_reply_frame (request : arp) (arp_dst_ip : ip) (arp_dst_mac : mac) : Packet :=
  {| eth := {| eth_dst := src_mac request; eth_src := arp_dst_mac;
               ethertype := ETH_TYPE_ARP |};
     upper := [HArp {| hwtype := 1; proto := ETH_TYPE_IP; hlen := 6; plen := 4;
                       opcode := ARP_REPLY; src_mac := arp_dst_mac; src_ip := arp_dst_ip;
                       dst_mac := src_mac request; dst_ip := src_ip request |}] |}.

Definition send_arp_reply (of_packet : PacketIn) (data_packet : Packet) : M unit :=
  a ← arp_header data_packet "dst_ip";
  let arp_dst_ip := dst_ip a in
  if decide (arp_dst_ip = nat_internal_ip config) then
    send_packet (arp_reply_frame a arp_dst_ip (nat_internal_mac config))
      of_packet (Some OFPP_IN_PORT) None;;
    mret tt
  else if decide (arp_dst_ip = nat_external_ip config) then
    send_packet (arp_reply_frame a arp_dst_ip (nat_external_mac config))
      of_packet (Some OFPP_IN_PORT) None;;
    mret tt
  else mret tt.

(** The loop of lines 156-158.  Its target [of_packet] is the parameter of
    [handle_incoming_arp] itself, so each iteration rebinds it; the value the
    name holds when the loop is over is returned.  [router_forward] finds
    [arp_src_ip] resolved and so never touches the queue being walked. *)
Fixpoint replay_pending (arp_src_ip : ip) (queue : list entry) (of_packet : PacketIn)
    : M PacketIn :=
  match queue with
  | [] => mret of_packet
  | (of_packet, mtch, actions) :: queue =>
      router_forward of_packet (data of_packet) arp_src_ip mtch actions;;
      replay_pending arp_src_ip queue of_packet
  end.

Definition handle_incoming_arp (of_packet : PacketIn) (data_packet : Packet) : M unit :=
  a ← arp_header data_packet "src_ip";
  let arp_src_ip := src_ip a in
  let arp_src_mac := src_mac a in
  modify (set_arp_table <[arp_src_ip := arp_src_mac]>);;
  queued ← gets (λ s, pending_arp s !! arp_src_ip);
  of_packet ←
    match queued with
    | Some queue =>
        of_packet ← replay_pending arp_src_ip queue of_packet;
        modify (set_pending_arp (delete arp_src_ip));;
        mret of_packet
    | None => mret of_packet
    end;
  switch_forward of_packet data_packet None;;
  if decide (opcode a = 1) then send_arp_reply of_packet data_packet
  else mret tt.

(** *** Translation table *)

Definition add_nat_entry (internal_entry : ip * Z) : M Z :=
  cur_port ← gets nat_port;
  modify (set_nat_translation <[str cur_port := internal_entry]>);;
  modify (set_nat_port (λ p, p + 1));;
  mret cur_port.

(** The lookup of lines 287 and 299: [self.nat_translation[str(port_nat)]]. *)
Definition nat_lookup (s : NatController) (port_nat : Z) : option (ip * Z) :=
  nat_translation s !! str port_nat.

(** *** Frames for the external side of the gateway *)

(** [time.sleep(1)] on line 306.  The tables belong to the one thread that
    runs the handlers, one event at a time, so nothing changes them while
    it sleeps. *)
Definition sleep : M unit := mret tt.

Definition handle_incoming_external_msg (of_packet : PacketIn) (data_packet : Packet)
    : M unit :=
  let switch := datapath of_packet in
  if is_ipv4 data_packet then
    ip_hdr ← attr_of "src" (get_ipv4 data_packet);
    let src_ip := ip_src ip_hdr in
    let dst_ip := ip_dst ip_hdr in
    let protocol := ip_proto ip_hdr in
    (* lines 276-286: the transport header read, or return *)
    transport ←
      (if decide (protocol = IPPROTO_TCP) then
         tcp_proto ← attr_of "dst_port" (get_tcp data_packet);
         mret (Some (inl tcp_proto))
       else if decide (protocol = IPPROTO_UDP) then
         udp_proto ← attr_of "dst_port" (get_udp data_packet);
         mret (Some (inr udp_proto))
       else mret None);
    match transport with
    | None => mret tt
    | Some transport =>
        let port_nat :=
          match transport with
          | inl tcp_proto => tcp_dst_port tcp_proto
          | inr udp_proto => udp_dst_port udp_proto
          end in
        hit ← dict_mem nat_translation (str port_nat);
        if bool_decide (port_nat = 0) || negb hit then mret tt
        else
          nat_entry ← dict_get nat_translation (str port_nat);
          let internal_ip_addr := nat_entry.1 in
          let internal_port := nat_entry.2 in
          known ← dict_mem arp_table internal_ip_addr;
          (if negb known then
             send_arp_request internal_ip_addr of_packet None None;;
             sleep
           else mret tt);;
          internal_host_mac ← dict_get arp_table internal_ip_addr;
          (* lines 310-311: [out_port] is assigned only when the host was learned *)
          out_port ← gets (λ s, switch_table s !! internal_host_mac);
          '(mtch, actions) ←
            match transport with
            | inl tcp_proto =>
                let mtch := mkMatch ETH_TYPE_IP src_ip dst_ip protocol
                  (TcpPorts (tcp_src_port tcp_proto) (tcp_dst_port tcp_proto)) in
                out_port ← local "out_port" out_port;
                mret (mtch,
                      [OFPActionSetField (F_ipv4_dst internal_ip_addr);
                       OFPActionSetField (F_tcp_dst internal_port);
                       OFPActionSetField (F_eth_src (nat_internal_mac config));
                       OFPActionSetField (F_eth_dst internal_host_mac);
                       OFPActionOutput out_port])
            | inr udp_proto =>
                let mtch := mkMatch ETH_TYPE_IP src_ip dst_ip protocol
                  (UdpPorts (udp_src_port udp_proto) (udp_dst_port udp_proto)) in
                out_port ← local "out_port" out_port;
                mret (mtch,
                      [OFPActionSetField (F_ipv4_dst internal_ip_addr);
                       OFPActionSetField (F_udp_dst internal_port);
                       OFPActionSetField (F_eth_src (nat_internal_mac config));
                       OFPActionSetField (F_eth_dst internal_host_mac);
                       OFPActionOutput out_port])
            end;
          add_flow switch mtch actions;;
          switch_forward of_packet data_packet (Some actions);;
          mret tt
    end
  else mret tt.

(** *** Frames from the internal network *)

Definition handle_incoming_internal_msg (of_packet : PacketIn) (data_packet : Packet)
    : M unit :=
  let switch := datapath of_packet in
  let dst_mac := eth_dst (eth data_packet) in
  out_port ← gets (λ s, switch_out_port s dst_mac);
  if is_ipv4 data_packet then
    ip_hdr ← attr_of "src" (get_ipv4 data_packet);
    let src_ip := ip_src ip_hdr in
    let dst_ip := ip_dst ip_hdr in
    let protocol := ip_proto ip_hdr in
    if is_internal_network dst_ip then
      let actions := [OFPActionOutput out_port] in
      (* lines 373-384: [match] is assigned for ICMP, TCP and UDP only *)
      mtch ←
        (if decide (protocol = IPPROTO_ICMP) then
           mret (Some (mkMatch ETH_TYPE_IP src_ip dst_ip protocol NoPorts))
         else if decide (protocol = IPPROTO_TCP) then
           tcp_proto ← attr_of "src_port" (get_tcp data_packet);
           mret (Some (mkMatch ETH_TYPE_IP src_ip dst_ip protocol
                         (TcpPorts (tcp_src_port tcp_proto) (tcp_dst_port tcp_proto))))
         else if decide (protocol = IPPROTO_UDP) then
           udp_proto ← attr_of "src_port" (get_udp data_packet);
           mret (Some (mkMatch ETH_TYPE_IP src_ip dst_ip protocol
                         (UdpPorts (udp_src_port udp_proto) (udp_dst_port udp_proto))))
         else mret None);
      mtch ← local "match" mtch;
      add_flow switch mtch actions;;
      switch_forward of_packet data_packet (Some actions);;
      mret tt
    else
      (* lines 396-421: [match] and [actions] are assigned for TCP and UDP only *)
      bound ←
        (if decide (protocol = IPPROTO_TCP) then
           tcp_proto ← attr_of "src_port" (get_tcp data_packet);
           let internal_src_port := tcp_src_port tcp_proto in
           let internal_src_addr := src_ip in
           ext_port ← add_nat_entry (internal_src_addr, internal_src_port);
           mret (Some (mkMatch ETH_TYPE_IP src_ip dst_ip protocol
                         (TcpPorts (tcp_src_port tcp_proto) (tcp_dst_port tcp_proto)),
                       [OFPActionSetField (F_ipv4_src (nat_external_ip config));
                        OFPActionSetField (F_tcp_src ext_port);
                        OFPActionSetField (F_eth_src (nat_external_mac config));
                        OFPActionOutput out_port]))
         else if decide (protocol = IPPROTO_UDP) then
           udp_proto ← attr_of "src_port" (get_udp data_packet);
           let internal_src_port := udp_src_port udp_proto in
           let internal_src_addr := src_ip in
           ext_port ← add_nat_entry (internal_src_addr, internal_src_port);
           mret (Some (mkMatch ETH_TYPE_IP src_ip dst_ip protocol
                         (UdpPorts (udp_src_port udp_proto) (udp_dst_port udp_proto)),
                       [OFPActionSetField (F_ipv4_src (nat_external_ip config));
                        OFPActionSetField (F_udp_src ext_port);
                        OFPActionSetField (F_eth_src (nat_external_mac config));
                        OFPActionOutput out_port]))
         else mret None);
      '(mtch, actions) ← local "match" bound;
      add_flow switch mtch actions;;
      router_forward of_packet data_packet (nat_gateway_ip config) (Some mtch) (Some actions)
  else mret tt.

(** *** The packet-in event *)

Definition handle_packet_in (of_packet : PacketIn) : M unit :=
  let data_packet := data of_packet in
  if is_ipv6 data_packet then mret tt
  else
    switch_learn of_packet data_packet;;
    if is_arp data_packet then
      handle_incoming_arp of_packet data_packet
    else if decide (eth_dst (eth data_packet) = nat_external_mac config) then
      handle_incoming_external_msg of_packet data_packet
    else
      handle_incoming_internal_msg of_packet data_packet.

End Controller.

(** A session of the translation table: [add_nat_entry] called once for each
    element of [entries], in order; the ports it returned, in order. *)
Fixpoint allocate_all (entries : list (ip * Z)) : M (list Z) :=
  match entries with
  | [] => mret []
  | e :: entries =>
      p ← add_nat_entry e;
      ps ← allocate_all entries;
      mret (p :: ps)
  end.

(** * Properties *)

(** Unfolds the monad so that a handler can be run by [simpl]. *)
Ltac unfold_monad :=
  unfold dict_get, dict_mem, local, add_flow, send_msg;
  unfold mbind, M_bind, mret, M_ret, gets, modify, raise;
  cbv beta.

(** ** Translation table *)

Lemma add_nat_entry_run (e : ip * Z) (s : NatController) :
  add_nat_entry e s =
    (Normal (nat_port s),
     set_nat_port (λ p, p + 1) (set_nat_translation <[str (nat_port s) := e]> s)).
Proof. reflexivity. Qed.

Lemma str_inj (n m : Z) : str n = str m → n = m.
Proof. unfold str. apply (inj pretty). Qed.

Lemma allocate_all_run (entries : list (ip * Z)) :
  ∀ s : NatController, ∃ s' : NatController,
    allocate_all entries s = (Normal (seqZ (nat_port s) (Z.of_nat (length entries))), s') ∧
    nat_port s' = nat_port s + Z.of_nat (length entries) ∧
    (∀ k : string,
       (∀ i : nat, (i < length entries)%nat → k ≠ str (nat_port s + Z.of_nat i)) →
       nat_translation s' !! k = nat_translation s !! k) ∧
    (∀ (i : nat) (e : ip * Z),
       entries !! i = Some e → nat_translation s' !! str (nat_port s + Z.of_nat i) = Some e) ∧
    arp_table s' = arp_table s ∧ switch_table s' = switch_table s ∧
    pending_arp s' = pending_arp s ∧ sent s' = sent s.
Proof.
  induction entries as [|e entries IH]; intros s.
  - exists s. simpl. repeat split; try done. lia.
  - set (s1 := set_nat_port (λ p, p + 1)
                 (set_nat_translation <[str (nat_port s) := e]> s)).
    destruct (IH s1) as (s' & Hrun & Hport & Hother & Hhit & Ha & Hsw & Hp & Hsent).
    exists s'. cbn [allocate_all]. unfold mbind, M_bind at 1.
    rewrite add_nat_entry_run. fold s1. unfold mbind, M_bind at 1. rewrite Hrun.
    assert (Hs1 : nat_port s1 = nat_port s + 1) by reflexivity.
    repeat split; try done.
    + unfold mret, M_ret. do 2 f_equal. rewrite Hs1.
      rewrite (seqZ_cons (nat_port s) (Z.of_nat (length (e :: entries)))) by (simpl; lia).
      do 2 f_equal; simpl; lia.
    + rewrite Hport, Hs1. simpl. lia.
    + intros k Hk. rewrite Hother.
      * simpl. apply lookup_insert_ne. specialize (Hk 0%nat).
        simpl in Hk. rewrite Z.add_0_r in Hk. intros Heq. apply Hk; [simpl; lia | done].
      * intros i Hi. rewrite Hs1. specialize (Hk (S i)).
        replace (nat_port s + 1 + Z.of_nat i) with (nat_port s + Z.of_nat (S i)) by lia.
        apply Hk. simpl. lia.
    + intros [|i] e' He'; simpl in He'.
      * injection He' as <-. rewrite Hother.
        -- simpl. rewrite Z.add_0_r. apply lookup_insert_eq.
        -- intros i _ Heq. apply str_inj in Heq. lia.
      * replace (nat_port s + Z.of_nat (S i)) with (nat_port s1 + Z.of_nat i) by (rewrite Hs1; lia).
        by apply Hhit.
Qed.

(** C1: in a session that starts from the freshly built controller, the
    ports returned by [add_nat_entry] are 3000, 3001, ... in the order of the
    calls, hence strictly increasing and pairwise distinct, and looking up a
    returned port in the translation table gives back the pair given to the
    call that returned it. *)
Theorem C1_allocate_increasing_reverse_lookup (entries : list (ip * Z)) :
  ∃ (ports : list Z) (s' : NatController),
    allocate_all entries init = (Normal ports, s') ∧
    length ports = length entries ∧
    (∀ i : nat, (i < length entries)%nat → ports !! i = Some (3000 + Z.of_nat i)) ∧
    (∀ (i j : nat) (p q : Z),
       (i < j)%nat → ports !! i = Some p → ports !! j = Some q → p < q) ∧
    NoDup ports ∧
    (∀ (i : nat) (p : Z) (e : ip * Z),
       ports !! i = Some p → entries !! i = Some e → nat_lookup s' p = Some e).
Proof.
  destruct (allocate_all_run entries init) as (s' & Hrun & _ & _ & Hhit & _).
  change (nat_port init) with 3000 in *.
  exists (seqZ 3000 (Z.of_nat (length entries))), s'.
  split; [done|]. split; [rewrite length_seqZ; lia|].
  split; [|split; [|split]].
  - intros i Hi. apply lookup_seqZ. lia.
  - intros i j p q Hij Hp Hq.
    apply lookup_seqZ in Hp as [-> _]. apply lookup_seqZ in Hq as [-> _]. lia.
  - apply NoDup_seqZ.
  - intros i p e Hp He. apply lookup_seqZ in Hp as [-> _].
    unfold nat_lookup. by apply Hhit.
Qed.

(** ** Address learning *)

(** The packet-in events of a run, each one learned by [switch_learn]. *)
Fixpoint learn_all (events : list PacketIn) : M unit :=
  match events with
  | [] => mret tt
  | ev :: events => switch_learn ev (data ev);; learn_all events
  end.

(** The link address an event is an observation of. *)
Definition observed (ev : PacketIn) : mac := eth_src (eth (data ev)).

Lemma learn_all_cons (ev : PacketIn) (events : list PacketIn) (s : NatController) :
  learn_all (ev :: events) s =
    learn_all events (set_switch_table <[observed ev := in_port ev]> s).
Proof. reflexivity. Qed.

Lemma learn_all_normal (events : list PacketIn) :
  ∀ s, (learn_all events s).1 = Normal tt.
Proof.
  induction events as [|ev events IH]; intros s; [done|].
  rewrite learn_all_cons. apply IH.
Qed.

Lemma learn_all_unseen (m : mac) (events : list PacketIn) :
  ∀ s, Forall (λ ev, observed ev ≠ m) events →
       switch_table (learn_all events s).2 !! m = switch_table s !! m.
Proof.
  induction events as [|ev events IH]; intros s Hall; [done|].
  apply Forall_cons in Hall as [Hev Hall].
  rewrite learn_all_cons, IH by done. simpl. by apply lookup_insert_ne.
Qed.

Lemma learn_all_last_seen (m : mac) (earlier : list PacketIn) :
  ∀ s ev later,
    observed ev = m → Forall (λ ev', observed ev' ≠ m) later →
    switch_table (learn_all (earlier ++ ev :: later) s).2 !! m = Some (in_port ev).
Proof.
  induction earlier as [|ev0 earlier IH]; intros s ev later Hev Hlater.
  - simpl app. rewrite learn_all_cons, learn_all_unseen by done.
    simpl. rewrite Hev. apply lookup_insert_eq.
  - change ((ev0 :: earlier) ++ ev :: later) with (ev0 :: (earlier ++ ev :: later)).
    rewrite learn_all_cons. by apply IH.
Qed.

(** C9: after any sequence of observations learned by a fresh controller, the
    output port chosen for a link address is the ingress port of the last
    observation of that address, whatever was observed before it, and the
    flood port when the address was never observed. *)
Theorem C9_last_seen_wins_else_flood (events : list PacketIn) (m : mac) :
  (learn_all events init).1 = Normal tt ∧
  (∀ earlier ev later,
     events = earlier ++ ev :: later →
     observed ev = m →
     Forall (λ ev', observed ev' ≠ m) later →
     switch_out_port (learn_all events init).2 m = in_port ev) ∧
  (Forall (λ ev, observed ev ≠ m) events →
   switch_out_port (learn_all events init).2 m = OFPP_FLOOD).
Proof.
  split; [apply learn_all_normal|]. split.
  - intros earlier ev later -> Hev Hlater. unfold switch_out_port.
    by rewrite (learn_all_last_seen m earlier init ev later).
  - intros Hall. unfold switch_out_port.
    by rewrite learn_all_unseen.
Qed.

(** What [switch_forward] sends: the frame of [of_packet], to the port
    [switch_out_port] gives for the destination of [data_packet]. *)
Lemma switch_forward_run (of_packet : PacketIn) (data_packet : Packet)
    (actions : option (list action)) (s : NatController) :
  switch_forward of_packet data_packet actions s =
    (Normal (default [] actions
             ++ [OFPActionOutput (switch_out_port s (eth_dst (eth data_packet)))]),
     emit [OFPPacketOut (datapath of_packet) (in_port of_packet)
             (default [] actions
              ++ [OFPActionOutput (switch_out_port s (eth_dst (eth data_packet)))])
             (data of_packet)] s).
Proof. by destruct actions. Qed.

(** ** Resolution requests *)

(** A call [send_arp_request(ip, of_packet, match, actions)]. *)
Abbreviation request :=
  (ip * PacketIn * option OFPMatch * option (list action))%type.

Section Resolution.

Variable config : nat_config.

(** Calls made one after the other, with no reply in between. *)
Fixpoint request_all (requests : list request) : M unit :=
  match requests with
  | [] => mret tt
  | (target, of_packet, mtch, actions) :: requests =>
      send_arp_request config target of_packet mtch actions;;
      request_all requests
  end.

(** The queue elements the calls for [target] leave, in the order of the calls. *)
Definition entries_for (target : ip) (requests : list request) : list entry :=
  omap (λ '(t, of_packet, mtch, actions),
          if decide (t = target) then Some (of_packet, mtch, actions) else None)
       requests.

(** A packet-out that carries a broadcast ARP request asking for [target]. *)
Definition is_arp_request_for (target : ip) (m : Msg) : bool :=
  match m with
  | OFPPacketOut _ _ _ p =>
      match upper p with
      | [HArp a] =>
          bool_decide (opcode a = ARP_REQUEST ∧ dst_ip a = target ∧
                       eth_dst (eth p) = "ff:ff:ff:ff:ff:ff")
      | _ => false
      end
  | OFPFlowMod _ _ _ => false
  end.

Definition broadcasts_for (target : ip) (msgs : list Msg) : nat :=
  length (filter (λ m, is_arp_request_for target m = true) msgs).

Lemma send_arp_request_queued target of_packet mtch actions q (s : NatController) :
  pending_arp s !! target = Some q →
  send_arp_request config target of_packet mtch actions s =
    (Normal tt, set_pending_arp <[target := q ++ [(of_packet, mtch, actions)]]> s).
Proof.
  intros Hq. unfold send_arp_request. unfold_monad. by rewrite Hq.
Qed.

Lemma send_arp_request_fresh target of_packet mtch actions (s : NatController) :
  pending_arp s !! target = None →
  send_arp_request config target of_packet mtch actions s =
    (Normal tt,
     emit [OFPPacketOut (datapath of_packet) (in_port of_packet)
             [OFPActionOutput OFPP_FLOOD] (arp_request_frame config target)]
       (set_pending_arp <[target := [(of_packet, mtch, actions)]]> s)).
Proof.
  intros Hq. unfold send_arp_request. unfold_monad. by rewrite Hq.
Qed.

Lemma is_arp_request_for_frame (target t : ip) dp inport acts :
  is_arp_request_for target (OFPPacketOut dp inport acts (arp_request_frame config t))
  = bool_decide (t = target).
Proof.
  simpl. apply bool_decide_ext. split; [by intros (_ & ? & _)|by intros ->].
Qed.

Lemma broadcasts_for_app target l1 l2 :
  broadcasts_for target (l1 ++ l2) = (broadcasts_for target l1 + broadcasts_for target l2)%nat.
Proof. unfold broadcasts_for. by rewrite filter_app, length_app. Qed.

Lemma broadcasts_for_frame (target t : ip) dp inport acts :
  broadcasts_for target [OFPPacketOut dp inport acts (arp_request_frame config t)]
  = if decide (t = target) then 1%nat else 0%nat.
Proof.
  unfold broadcasts_for. rewrite filter_cons, is_arp_request_for_frame.
  destruct (decide (t = target)) as [->|Hne].
  - rewrite bool_decide_true by done. by rewrite decide_True.
  - rewrite bool_decide_false by done. by rewrite decide_False.
Qed.

(** What a run of calls does to the queue of each address and how many
    broadcasts it emits for it. *)
Lemma request_all_run (requests : list request) :
  ∀ s : NatController, ∃ (s' : NatController) (new : list Msg),
    request_all requests s = (Normal tt, s') ∧
    sent s' = sent s ++ new ∧
    ∀ target : ip,
      pending_arp s' !! target =
        match entries_for target requests with
        | [] => pending_arp s !! target
        | es => Some (default [] (pending_arp s !! target) ++ es)
        end ∧
      broadcasts_for target new =
        match pending_arp s !! target, entries_for target requests with
        | None, _ :: _ => 1%nat
        | _, _ => 0%nat
        end.
Proof.
  induction requests as [|[[[t of_packet] mtch] actions] requests IH]; intros s.
  - exists s, []. split; [done|]. split; [by rewrite app_nil_r|].
    intros target. simpl. by destruct (pending_arp s !! target).
  - cbn [request_all]. unfold mbind, M_bind at 1.
    destruct (pending_arp s !! t) as [q|] eqn:Hq.
    + rewrite (send_arp_request_queued _ _ _ _ q) by done.
      destruct (IH (set_pending_arp <[t := q ++ [(of_packet, mtch, actions)]]> s))
        as (s' & new & Hrun & Hsent & Hspec).
      exists s', new. split; [done|]. split; [done|].
      intros target. destruct (Hspec target) as [Hpend Hcount].
      simpl in Hpend, Hcount. unfold entries_for in *. cbn [omap list_omap].
      destruct (decide (t = target)) as [->|Hne].
      * rewrite lookup_insert_eq in Hpend, Hcount. rewrite Hq. simpl.
        rewrite Hcount. split; [|by destruct (omap _ requests)].
        rewrite Hpend. destruct (omap _ requests); simpl; [done|].
        by rewrite <- app_assoc.
      * rewrite lookup_insert_ne in Hpend, Hcount by done. done.
    + rewrite send_arp_request_fresh by done.
      match goal with |- context [request_all requests ?s1] =>
        destruct (IH s1) as (s' & new & Hrun & Hsent & Hspec) end.
      eexists s', (_ :: new). split; [done|].
      split; [rewrite Hsent; simpl; by rewrite <- app_assoc|].
      intros target. destruct (Hspec target) as [Hpend Hcount].
      simpl in Hpend, Hcount. unfold entries_for in *. cbn [omap list_omap].
      change (?m :: new) with ([m] ++ new).
      rewrite broadcasts_for_app, broadcasts_for_frame.
      destruct (decide (t = target)) as [->|Hne].
      * rewrite lookup_insert_eq in Hpend, Hcount. rewrite Hq. simpl.
        rewrite Hcount. split; [|by destruct (omap _ requests)].
        rewrite Hpend. by destruct (omap _ requests).
      * rewrite lookup_insert_ne in Hpend, Hcount by done. done.
Qed.

End Resolution.

(** C2: a call of [send_arp_request] for an address that has a queue adds
    the request at the end of that queue and sends nothing; a call for an
    address without a queue creates the queue and sends one broadcast
    request; so over any run of calls with no reply in between, at most one
    broadcast is emitted for an address, and none for an address that had a
    queue when the run began. *)
Theorem C2_one_broadcast_per_unresolved_address
    (config : nat_config) (s : NatController) :
  (∀ target of_packet mtch actions q,
     pending_arp s !! target = Some q →
     ∃ s', send_arp_request config target of_packet mtch actions s = (Normal tt, s') ∧
           pending_arp s' !! target = Some (q ++ [(of_packet, mtch, actions)]) ∧
           sent s' = sent s) ∧
  (∀ target of_packet mtch actions,
     pending_arp s !! target = None →
     ∃ s' m, send_arp_request config target of_packet mtch actions s = (Normal tt, s') ∧
             pending_arp s' !! target = Some [(of_packet, mtch, actions)] ∧
             sent s' = sent s ++ [m] ∧ is_arp_request_for target m = true) ∧
  (∀ requests : list request,
     ∃ s' new, request_all config requests s = (Normal tt, s') ∧
               sent s' = sent s ++ new ∧
               ∀ target,
                 (broadcasts_for target new ≤ 1)%nat ∧
                 (is_Some (pending_arp s !! target) → broadcasts_for target new = 0%nat)).
Proof.
  split; [|split].
  - intros target of_packet mtch actions q Hq. eexists. split.
    + by apply send_arp_request_queued.
    + simpl. by rewrite lookup_insert_eq.
  - intros target of_packet mtch actions Hq. eexists _, _. split.
    + by apply send_arp_request_fresh.
    + simpl. rewrite lookup_insert_eq. split; [done|]. split; [done|].
      rewrite is_arp_request_for_frame. by apply bool_decide_eq_true.
  - intros requests.
    destruct (request_all_run config requests s) as (s' & new & Hrun & Hsent & Hspec).
    exists s', new. split; [done|]. split; [done|].
    intros target. destruct (Hspec target) as [_ Hcount]. rewrite Hcount.
    split.
    + destruct (pending_arp s !! target), (entries_for target requests); lia.
    + intros [q ->]. done.
Qed.

(** ** Resolution replies *)

Lemma emit_emit (a b : list Msg) (s : NatController) :
  emit b (emit a s) = emit (a ++ b) s.
Proof. unfold emit, set_sent. simpl. by rewrite app_assoc. Qed.

Lemma emit_nil (s : NatController) : emit [] s = s.
Proof. destruct s. unfold emit, set_sent. simpl. by rewrite app_nil_r. Qed.

Lemma set_pending_arp_emit f (msgs : list Msg) (s : NatController) :
  set_pending_arp f (emit msgs s) = emit msgs (set_pending_arp f s).
Proof. reflexivity. Qed.

Section Replies.

Variable config : nat_config.

(** The source link address [router_forward] writes for a next hop. *)
Definition next_hop_src (next_ip : ip) : mac :=
  if decide (next_ip = nat_gateway_ip config)
  then nat_external_mac config else nat_internal_mac config.

(** What forwarding [data_packet] for [of_packet] to the next hop [next_ip],
    resolved to [dst_mac], hands to the switch: the frame, with the next-hop
    rewrite, the extra actions and the output action, and then, when a match
    is attached, a rule with that same action list. *)
Definition forwarded (s : NatController) (next_ip : ip) (dst_mac : mac)
    (of_packet : PacketIn) (data_packet : Packet)
    (mtch : option OFPMatch) (extra : option (list action)) : list Msg :=
  let acts := router_next_hop (next_hop_src next_ip) dst_mac ++ default [] extra
              ++ [OFPActionOutput (switch_out_port s (eth_dst (eth data_packet)))] in
  OFPPacketOut (datapath of_packet) (in_port of_packet) acts (data of_packet)
  :: match mtch with
     | Some m => [OFPFlowMod (datapath of_packet) m acts]
     | None => []
     end.

(** The replay of one queue element. *)
Definition replayed (s : NatController) (next_ip : ip) (dst_mac : mac) (e : entry)
    : list Msg :=
  forwarded s next_ip dst_mac e.1.1 (data e.1.1) e.1.2 e.2.

(** The packet-in the name [of_packet] is bound to after the loop over
    [queue]. *)
Definition rebound (queue : list entry) (of_packet : PacketIn) : PacketIn :=
  foldl (λ _ e, e.1.1) of_packet queue.

(** Lines 161-166 of [handle_incoming_arp]: the forward through the learned
    port and, for a request for one of the gateway's own addresses, the
    reply. *)
Definition arp_tail (s : NatController) (of_packet : PacketIn) (data_packet : Packet)
    (a : arp) : list Msg :=
  OFPPacketOut (datapath of_packet) (in_port of_packet)
    [OFPActionOutput (switch_out_port s (eth_dst (eth data_packet)))] (data of_packet)
  :: if decide (opcode a = 1) then
       if decide (dst_ip a = nat_internal_ip config) then
         [OFPPacketOut (datapath of_packet) (in_port of_packet)
            [OFPActionOutput OFPP_IN_PORT]
            (arp_reply_frame a (dst_ip a) (nat_internal_mac config))]
       else if decide (dst_ip a = nat_external_ip config) then
         [OFPPacketOut (datapath of_packet) (in_port of_packet)
            [OFPActionOutput OFPP_IN_PORT]
            (arp_reply_frame a (dst_ip a) (nat_external_mac config))]
       else []
     else [].

Lemma router_forward_known of_packet data_packet next_ip dst_mac mtch extra
    (s : NatController) :
  arp_table s !! next_ip = Some dst_mac →
  router_forward config of_packet data_packet next_ip mtch extra s =
    (Normal tt, emit (forwarded s next_ip dst_mac of_packet data_packet mtch extra) s).
Proof.
  intros Hk. unfold router_forward, forwarded, next_hop_src. unfold_monad.
  rewrite Hk. rewrite bool_decide_true by done. cbn [negb]. rewrite Hk.
  rewrite switch_forward_run. cbn [default].
  destruct extra as [[|x extra]|], mtch as [m|]; cbn [default];
    rewrite ?app_nil_l, ?emit_emit, <- ?app_assoc; try done.
Qed.

Lemma replay_pending_run (target : ip) (dst_mac : mac) (queue : list entry) :
  ∀ (of_packet : PacketIn) (s : NatController),
    arp_table s !! target = Some dst_mac →
    replay_pending config target queue of_packet s =
      (Normal (rebound queue of_packet),
       emit (concat (map (replayed s target dst_mac) queue)) s).
Proof.
  induction queue as [|[[ofp mtch] extra] queue IH]; intros of_packet s Hk.
  - simpl. by rewrite emit_nil.
  - cbn [replay_pending]. unfold mbind, M_bind at 1.
    rewrite (router_forward_known _ _ _ dst_mac) by done.
    rewrite IH by done. rewrite emit_emit. done.
Qed.

Lemma handle_incoming_arp_run of_packet data_packet a hs (s : NatController) :
  upper data_packet = HArp a :: hs →
  let s1 := set_arp_table <[src_ip a := src_mac a]> s in
  let queue := default [] (pending_arp s !! src_ip a) in
  handle_incoming_arp config of_packet data_packet s =
    (Normal tt,
     emit (concat (map (replayed s (src_ip a) (src_mac a)) queue)
           ++ arp_tail s (rebound queue of_packet) data_packet a)
       (set_pending_arp (delete (src_ip a)) s1)).
Proof.
  intros Hup s1 queue.
  assert (Hk : arp_table s1 !! src_ip a = Some (src_mac a))
    by (simpl; apply lookup_insert_eq).
  unfold handle_incoming_arp, send_arp_reply, arp_header. rewrite Hup.
  unfold mbind, M_bind, mret, M_ret, gets, modify. fold s1.
  change (pending_arp s1) with (pending_arp s). subst queue.
  destruct (pending_arp s !! src_ip a) as [queue|] eqn:Hq; cbn [default].
  - rewrite (replay_pending_run _ (src_mac a)) by done.
    rewrite switch_forward_run, set_pending_arp_emit. cbn [default app].
    unfold arp_tail.
    destruct (decide (opcode a = 1)); [|by rewrite emit_emit].
    destruct (decide (dst_ip a = nat_internal_ip config)).
    { simpl. by rewrite !emit_emit. }
    destruct (decide (dst_ip a = nat_external_ip config)).
    { simpl. by rewrite !emit_emit. }
    by rewrite emit_emit.
  - rewrite switch_forward_run. cbn [default app concat map rebound foldl].
    replace (set_pending_arp (delete (src_ip a)) s1) with s1.
    2:{ unfold set_pending_arp. simpl. rewrite delete_id by done. by destruct s. }
    unfold arp_tail.
    destruct (decide (opcode a = 1)); [|done].
    destruct (decide (dst_ip a = nat_internal_ip config)).
    { simpl. by rewrite !emit_emit. }
    destruct (decide (dst_ip a = nat_external_ip config)).
    { simpl. by rewrite !emit_emit. }
    done.
Qed.

End Replies.

(** ** A small network to run the controller on *)

Module Scenario.

(** The gateway: internal side 10.0.0.1, external side 203.0.113.1, next
    hop 203.0.113.254; the internal network is 10.0.0.0/24. *)
Definition cfg : nat_config :=
  {| nat_external_mac := "00:00:00:00:01:00";
     nat_internal_mac := "00:00:00:00:00:10";
     nat_external_ip := "203.0.113.1";
     nat_internal_ip := "10.0.0.1";
     nat_gateway_ip := "203.0.113.254";
     nat_internal_net := λ a, String.prefix "10.0.0." a |}.

(** Host A (10.0.0.2, switch port 1) opens a TCP connection to
    198.51.100.7:80 through the gateway. *)
Definition tcp_out : PacketIn :=
  {| datapath := 1; in_port := 1;
     data := {| eth := {| eth_dst := "00:00:00:00:00:10"; eth_src := "00:00:00:00:00:0a";
                          ethertype := 2048 |};
                upper := [HIpv4 {| ip_src := "10.0.0.2"; ip_dst := "198.51.100.7";
                                   ip_proto := 6 |};
                          HTcp {| tcp_src_port := 40000; tcp_dst_port := 80 |}] |} |}.

(** The next hop (switch port 3) answers the gateway's ARP request. *)
Definition gw_arp_reply : PacketIn :=
  {| datapath := 1; in_port := 3;
     data := {| eth := {| eth_dst := "00:00:00:00:01:00"; eth_src := "00:00:00:00:01:fe";
                          ethertype := 2054 |};
                upper := [HArp {| hwtype := 1; proto := 2048; hlen := 6; plen := 4;
                                  opcode := 2;
                                  src_mac := "00:00:00:00:01:fe";
                                  src_ip := "203.0.113.254";
                                  dst_mac := "00:00:00:00:01:00";
                                  dst_ip := "203.0.113.1" |}] |} |}.

(** The next hop asks who has the gateway's external address. *)
Definition gw_arp_request : PacketIn :=
  {| datapath := 1; in_port := 3;
     data := {| eth := {| eth_dst := "ff:ff:ff:ff:ff:ff"; eth_src := "00:00:00:00:01:fe";
                          ethertype := 2054 |};
                upper := [HArp {| hwtype := 1; proto := 2048; hlen := 6; plen := 4;
                                  opcode := 1;
                                  src_mac := "00:00:00:00:01:fe";
                                  src_ip := "203.0.113.254";
                                  dst_mac := "00:00:00:00:00:00";
                                  dst_ip := "203.0.113.1" |}] |} |}.

(** The controller after [tcp_out] reached a fresh controller: the frame
    waits for the next hop to be resolved. *)
Definition waiting : NatController := (handle_packet_in cfg tcp_out init).2.

(** The controller after the next hop's reply reached [waiting]. *)
Definition resolved : NatController := (handle_packet_in cfg gw_arp_reply waiting).2.

(** Host A opens a second connection, from another source port. *)
Definition tcp_out2 : PacketIn :=
  {| datapath := 1; in_port := 1;
     data := {| eth := {| eth_dst := "00:00:00:00:00:10"; eth_src := "00:00:00:00:00:0a";
                          ethertype := 2048 |};
                upper := [HIpv4 {| ip_src := "10.0.0.2"; ip_dst := "198.51.100.7";
                                   ip_proto := 6 |};
                          HTcp {| tcp_src_port := 40001; tcp_dst_port := 80 |}] |} |}.

(** The answer of 198.51.100.7:80, addressed to the gateway's external side
    and to external port 3000. *)
Definition tcp_in : PacketIn :=
  {| datapath := 1; in_port := 3;
     data := {| eth := {| eth_dst := "00:00:00:00:01:00"; eth_src := "00:00:00:00:01:fe";
                          ethertype := 2048 |};
                upper := [HIpv4 {| ip_src := "198.51.100.7"; ip_dst := "203.0.113.1";
                                   ip_proto := 6 |};
                          HTcp {| tcp_src_port := 80; tcp_dst_port := 3000 |}] |} |}.

(** Host A pings 198.51.100.7 (ICMP, protocol 1). *)
Definition icmp_out : PacketIn :=
  {| datapath := 1; in_port := 1;
     data := {| eth := {| eth_dst := "00:00:00:00:00:10"; eth_src := "00:00:00:00:00:0a";
                          ethertype := 2048 |};
                upper := [HIpv4 {| ip_src := "10.0.0.2"; ip_dst := "198.51.100.7";
                                   ip_proto := 1 |}] |} |}.

(** Host A sends a GRE packet (protocol 47) to host B, 10.0.0.3. *)
Definition gre_local : PacketIn :=
  {| datapath := 1; in_port := 1;
     data := {| eth := {| eth_dst := "00:00:00:00:00:0b"; eth_src := "00:00:00:00:00:0a";
                          ethertype := 2048 |};
                upper := [HIpv4 {| ip_src := "10.0.0.2"; ip_dst := "10.0.0.3";
                                   ip_proto := 47 |}] |} |}.

(** The same GRE packet, addressed to the gateway's external link address. *)
Definition gre_in : PacketIn :=
  {| datapath := 1; in_port := 3;
     data := {| eth := {| eth_dst := "00:00:00:00:01:00"; eth_src := "00:00:00:00:01:fe";
                          ethertype := 2048 |};
                upper := [HIpv4 {| ip_src := "198.51.100.7"; ip_dst := "203.0.113.1";
                                   ip_proto := 47 |}] |} |}.

(** An ARP announcement for 10.0.0.2 sent by a relay on switch port 2: the
    link address it announces, 00:00:00:00:00:aa, is not the source of the
    frame, nor of any other frame. *)
Definition arp_by_relay : PacketIn :=
  {| datapath := 1; in_port := 2;
     data := {| eth := {| eth_dst := "ff:ff:ff:ff:ff:ff"; eth_src := "00:00:00:00:00:0b";
                          ethertype := 2054 |};
                upper := [HArp {| hwtype := 1; proto := 2048; hlen := 6; plen := 4;
                                  opcode := 2;
                                  src_mac := "00:00:00:00:00:aa";
                                  src_ip := "10.0.0.2";
                                  dst_mac := "ff:ff:ff:ff:ff:ff";
                                  dst_ip := "10.0.0.2" |}] |} |}.

(** The controller after the relay's announcement reached [waiting]. *)
Definition announced : NatController := (handle_packet_in cfg arp_by_relay waiting).2.

End Scenario.

(** ** Handling an ARP frame *)

(** C3: when an ARP frame from address X with link address M is handled,
    X is recorded as resolved to M, every request queued on X is replayed
    once, in the order it was queued, each as a packet-out of the queued
    frame whose actions set the destination link address to M followed by
    the rule when a match was queued with it, and afterwards no queue exists
    for X.  The messages of the replay are followed by those of lines
    161-166 only. *)
Theorem C3_reply_records_replays_and_deletes
    (config : nat_config) (of_packet : PacketIn) (data_packet : Packet)
    (a : arp) (hs : list header) (s : NatController) :
  upper data_packet = HArp a :: hs →
  ∃ s' : NatController,
    handle_incoming_arp config of_packet data_packet s = (Normal tt, s') ∧
    arp_table s' !! src_ip a = Some (src_mac a) ∧
    pending_arp s' !! src_ip a = None ∧
    (∀ x, x ≠ src_ip a → pending_arp s' !! x = pending_arp s !! x) ∧
    sent s' =
      sent s
      ++ concat (map (replayed config s (src_ip a) (src_mac a))
                     (default [] (pending_arp s !! src_ip a)))
      ++ arp_tail config s
           (rebound (default [] (pending_arp s !! src_ip a)) of_packet) data_packet a ∧
    Forall (λ e : entry,
              ∃ acts,
                OFPActionSetField (F_eth_dst (src_mac a)) ∈ acts ∧
                replayed config s (src_ip a) (src_mac a) e =
                  OFPPacketOut (datapath e.1.1) (in_port e.1.1) acts (data e.1.1)
                  :: match e.1.2 with
                     | Some m => [OFPFlowMod (datapath e.1.1) m acts]
                     | None => []
                     end)
           (default [] (pending_arp s !! src_ip a)).
Proof.
  intros Hup. eexists. split; [by eapply handle_incoming_arp_run|].
  split; [simpl; apply lookup_insert_eq|].
  split; [simpl; apply lookup_delete_eq|].
  split; [intros x Hx; simpl; by apply lookup_delete_ne|].
  split; [reflexivity|].
  apply Forall_forall. intros [[ofp mtch] extra] _.
  eexists. split; [|reflexivity].
  unfold router_next_hop. set_solver.
Qed.

(** C3 on the network of [Scenario]: the next hop's reply reaches the
    controller that holds host A's frame. *)
Lemma C3_reply_records_replays_and_deletes_witness :
  ∃ s' : NatController,
    handle_incoming_arp Scenario.cfg Scenario.gw_arp_reply
      (data Scenario.gw_arp_reply) Scenario.waiting = (Normal tt, s') ∧
    arp_table s' !! "203.0.113.254" = Some "00:00:00:00:01:fe" ∧
    pending_arp s' !! "203.0.113.254" = None.
Proof.
  destruct (C3_reply_records_replays_and_deletes Scenario.cfg Scenario.gw_arp_reply
              (data Scenario.gw_arp_reply) _ [] Scenario.waiting eq_refl)
    as (s' & Hrun & Harp & Hpend & _).
  exists s'. split; [exact Hrun|]. split; [exact Harp|exact Hpend].
Defined.

(** When nothing waits for the sender of an ARP frame, the frame the
    controller forwards is the one it was handed, on behalf of the packet-in
    that carried it. *)
Lemma arp_idle_forwards_trigger
    (config : nat_config) (of_packet : PacketIn) (data_packet : Packet)
    (a : arp) (hs : list header) (s : NatController) :
  upper data_packet = HArp a :: hs →
  pending_arp s !! src_ip a = None →
  ∃ s' : NatController,
    handle_incoming_arp config of_packet data_packet s = (Normal tt, s') ∧
    sent s' = sent s ++ arp_tail config s of_packet data_packet a.
Proof.
  intros Hup Hidle. eexists. split; [by eapply handle_incoming_arp_run|].
  rewrite Hidle. reflexivity.
Qed.

(** When requests wait for the sender, the loop has rebound [of_packet] to
    the packet-in of the last of them, and lines 161-166 run on its behalf. *)
Lemma arp_busy_forwards_last_queued
    (config : nat_config) (of_packet : PacketIn) (data_packet : Packet)
    (a : arp) (hs : list header) (s : NatController) (queue : list entry) (e : entry) :
  upper data_packet = HArp a :: hs →
  pending_arp s !! src_ip a = Some (queue ++ [e]) →
  ∃ s' : NatController,
    handle_incoming_arp config of_packet data_packet s = (Normal tt, s') ∧
    sent s' = sent s
              ++ concat (map (replayed config s (src_ip a) (src_mac a)) (queue ++ [e]))
              ++ arp_tail config s e.1.1 data_packet a.
Proof.
  intros Hup Hbusy. eexists. split; [by eapply handle_incoming_arp_run|].
  rewrite Hbusy. cbn [default from_option id]. unfold rebound.
  rewrite foldl_app. reflexivity.
Qed.

(** The frame a message carries to the switch, if it carries one. *)
Definition payload_of (m : Msg) : option Packet :=
  match m with
  | OFPPacketOut _ _ _ p => Some p
  | OFPFlowMod _ _ _ => None
  end.

(** The messages [s'] has that [s] had not. *)
Definition new_since (s s' : NatController) : list Msg :=
  drop (length (sent s)) (sent s').

(** C5, on the network of [Scenario]: host A's first frame waits for the
    next hop, whose ARP reply then arrives.  The handler ends normally after
    three messages; the last one, the forward of line 161, carries host A's
    queued frame for the packet-in of host A, and no message carries the ARP
    reply that triggered the handler. *)
Theorem C5_forward_after_replay_carries_queued_frame :
  (handle_packet_in Scenario.cfg Scenario.tcp_out init).1 = Normal tt ∧
  (handle_packet_in Scenario.cfg Scenario.gw_arp_reply Scenario.waiting).1 = Normal tt ∧
  length (new_since Scenario.waiting
            (handle_packet_in Scenario.cfg Scenario.gw_arp_reply Scenario.waiting).2)
    = 3%nat ∧
  last (sent (handle_packet_in Scenario.cfg Scenario.gw_arp_reply Scenario.waiting).2)
    = Some (OFPPacketOut 1 (in_port Scenario.tcp_out) [OFPActionOutput OFPP_FLOOD]
              (data Scenario.tcp_out)) ∧
  Forall (λ m, payload_of m ≠ Some (data Scenario.gw_arp_reply))
    (new_since Scenario.waiting
       (handle_packet_in Scenario.cfg Scenario.gw_arp_reply Scenario.waiting).2).
Proof.
  split; [by vm_compute|]. split; [by vm_compute|]. split; [by vm_compute|].
  split; [by vm_compute|].
  vm_compute. repeat constructor; discriminate.
Qed.

(** A request is answered if and only if it asks for one of the gateway's
    two addresses, whatever waits for the requester; the answer is addressed
    to the requester's link address and sent on behalf of the packet-in
    [of_packet] is bound to after the loop. *)
Lemma arp_request_answered_iff_own
    (config : nat_config) (of_packet : PacketIn) (data_packet : Packet)
    (a : arp) (hs : list header) (s : NatController) :
  upper data_packet = HArp a :: hs →
  opcode a = 1 →
  ∃ (s' : NatController) (replay : list Msg) (fwd : Msg) (reply : list Msg),
    handle_incoming_arp config of_packet data_packet s = (Normal tt, s') ∧
    sent s' = sent s ++ replay ++ fwd :: reply ∧
    ((dst_ip a = nat_internal_ip config ∨ dst_ip a = nat_external_ip config) →
     ∃ own_mac,
       reply = [OFPPacketOut
                  (datapath (rebound (default [] (pending_arp s !! src_ip a)) of_packet))
                  (in_port (rebound (default [] (pending_arp s !! src_ip a)) of_packet))
                  [OFPActionOutput OFPP_IN_PORT]
                  (arp_reply_frame a (dst_ip a) own_mac)] ∧
       eth_dst (eth (arp_reply_frame a (dst_ip a) own_mac)) = src_mac a) ∧
    (dst_ip a ≠ nat_internal_ip config → dst_ip a ≠ nat_external_ip config → reply = []).
Proof.
  intros Hup Hop.
  eexists _, _, _, _. split; [by eapply handle_incoming_arp_run|].
  split.
  { unfold arp_tail. rewrite decide_True by done. reflexivity. }
  split.
  - intros Hown. destruct (decide (dst_ip a = nat_internal_ip config)); [by eexists|].
    destruct (decide (dst_ip a = nat_external_ip config)); [by eexists|].
    by destruct Hown.
  - intros Hint Hext. by rewrite !decide_False by done.
Qed.

(** With nothing waiting for the requester, a request is answered if and
    only if it asks for one of the gateway's two addresses, and the answer
    goes to the requester's link address through the port the request came
    in by. *)
Lemma arp_idle_request_answered_iff_own
    (config : nat_config) (of_packet : PacketIn) (data_packet : Packet)
    (a : arp) (hs : list header) (s : NatController) :
  upper data_packet = HArp a :: hs →
  opcode a = 1 →
  pending_arp s !! src_ip a = None →
  ∃ (s' : NatController) (fwd : Msg) (reply : list Msg),
    handle_incoming_arp config of_packet data_packet s = (Normal tt, s') ∧
    sent s' = sent s ++ fwd :: reply ∧
    payload_of fwd = Some (data of_packet) ∧
    ((dst_ip a = nat_internal_ip config ∨ dst_ip a = nat_external_ip config) →
     ∃ own_mac,
       reply = [OFPPacketOut (datapath of_packet) (in_port of_packet)
                  [OFPActionOutput OFPP_IN_PORT] (arp_reply_frame a (dst_ip a) own_mac)] ∧
       eth_dst (eth (arp_reply_frame a (dst_ip a) own_mac)) = src_mac a) ∧
    (dst_ip a ≠ nat_internal_ip config → dst_ip a ≠ nat_external_ip config → reply = []).
Proof.
  intros Hup Hop Hidle.
  destruct (arp_idle_forwards_trigger config of_packet data_packet a hs s Hup Hidle)
    as (s' & Hrun & Hsent).
  unfold arp_tail in Hsent. rewrite decide_True in Hsent by done.
  eexists s', _, _. split; [done|]. split; [exact Hsent|]. split; [done|].
  split.
  - intros Hown. destruct (decide (dst_ip a = nat_internal_ip config)); [by eexists|].
    destruct (decide (dst_ip a = nat_external_ip config)); [by eexists|].
    by destruct Hown.
  - intros Hint Hext. by rewrite !decide_False by done.
Qed.

(** C8, on the network of [Scenario]: host A's first frame waits for the
    next hop, which then asks for the gateway's external address from switch
    port 3.  The reply is built for the requester, but it is sent for the
    packet-in of host A's queued frame, so [OFPP_IN_PORT] is port 1. *)
Theorem C8_reply_after_replay_leaves_by_queued_port :
  (handle_packet_in Scenario.cfg Scenario.gw_arp_request Scenario.waiting).1 = Normal tt ∧
  last (sent (handle_packet_in Scenario.cfg Scenario.gw_arp_request Scenario.waiting).2)
    = Some (OFPPacketOut 1 1 [OFPActionOutput OFPP_IN_PORT]
              {| eth := {| eth_dst := "00:00:00:00:01:fe";
                           eth_src := "00:00:00:00:01:00";
                           ethertype := ETH_TYPE_ARP |};
                 upper := [HArp {| hwtype := 1; proto := ETH_TYPE_IP; hlen := 6;
                                   plen := 4; opcode := ARP_REPLY;
                                   src_mac := "00:00:00:00:01:00";
                                   src_ip := "203.0.113.1";
                                   dst_mac := "00:00:00:00:01:fe";
                                   dst_ip := "203.0.113.254" |}] |}) ∧
  in_port Scenario.gw_arp_request = 3 ∧
  in_port Scenario.tcp_out = 1.
Proof. repeat split; by vm_compute. Qed.

(** ** What leaves the translation table alone *)

(** A computation that leaves the translation table and its counter alone. *)
Definition keeps_translations {A} (c : M A) : Prop :=
  ∀ s, nat_translation (c s).2 = nat_translation s ∧ nat_port (c s).2 = nat_port s.

Lemma keeps_ret {A} (a : A) : keeps_translations (mret a).
Proof. by intros s. Qed.

Lemma keeps_raise {A} (e : exn) : keeps_translations (@raise A e).
Proof. by intros s. Qed.

Lemma keeps_gets {A} (f : NatController → A) : keeps_translations (gets f).
Proof. by intros s. Qed.

Lemma keeps_bind {A B} (c : M A) (k : A → M B) :
  keeps_translations c → (∀ a, keeps_translations (k a)) →
  keeps_translations (c ≫= k).
Proof.
  intros Hc Hk s. unfold mbind, M_bind. specialize (Hc s).
  destruct (c s) as [[a|e] s1]; simpl in *.
  - destruct (Hk a s1) as [-> ->]. done.
  - done.
Qed.

Lemma keeps_modify (f : NatController → NatController) :
  (∀ s, nat_translation (f s) = nat_translation s ∧ nat_port (f s) = nat_port s) →
  keeps_translations (modify f).
Proof. intros Hf s. apply Hf. Qed.

Lemma keeps_dict_get {V} (d : NatController → gmap string V) k :
  keeps_translations (dict_get d k).
Proof. intros s. unfold dict_get. by destruct (d s !! k). Qed.

Lemma keeps_local {A} var (v : option A) : keeps_translations (local var v).
Proof. destruct v; [apply keeps_ret|apply keeps_raise]. Qed.

Lemma keeps_attr_of {A} attr (o : option A) : keeps_translations (attr_of attr o).
Proof. destruct o; [apply keeps_ret|apply keeps_raise]. Qed.

Create HintDb keeps.
#[export] Hint Resolve keeps_ret keeps_raise keeps_gets keeps_dict_get keeps_local
  keeps_attr_of : keeps.

Ltac keeps_step :=
  match goal with
  | |- keeps_translations (_ ≫= _) => apply keeps_bind; [|intros ?]
  | |- keeps_translations (modify _) => apply keeps_modify; by intros ?
  | |- keeps_translations (if ?b then _ else _) => destruct b
  | |- keeps_translations (match ?x with _ => _ end) => destruct x
  | |- keeps_translations (let '(_, _) := ?x in _) => destruct x
  | |- keeps_translations _ => solve [eauto with keeps]
  end.

Lemma keeps_send_packet payload of_packet port actions :
  keeps_translations (send_packet payload of_packet port actions).
Proof. unfold send_packet, send_msg. repeat keeps_step. Qed.

Lemma keeps_add_flow switch m actions : keeps_translations (add_flow switch m actions).
Proof. unfold add_flow, send_msg. repeat keeps_step. Qed.

Lemma keeps_switch_forward of_packet data_packet actions :
  keeps_translations (switch_forward of_packet data_packet actions).
Proof. unfold switch_forward. repeat keeps_step. apply keeps_send_packet. Qed.

#[export] Hint Resolve keeps_send_packet keeps_add_flow keeps_switch_forward : keeps.

Lemma keeps_send_arp_request config target of_packet m actions :
  keeps_translations (send_arp_request config target of_packet m actions).
Proof. unfold send_arp_request. repeat keeps_step. Qed.

#[export] Hint Resolve keeps_send_arp_request : keeps.

Lemma keeps_router_forward config of_packet data_packet next_ip m extra :
  keeps_translations (router_forward config of_packet data_packet next_ip m extra).
Proof. unfold router_forward, dict_mem. repeat keeps_step. Qed.

#[export] Hint Resolve keeps_router_forward : keeps.

Lemma keeps_replay_pending config target queue :
  ∀ of_packet, keeps_translations (replay_pending config target queue of_packet).
Proof.
  induction queue as [|[[ofp m] extra] queue IH]; intros of_packet; simpl.
  - apply keeps_ret.
  - repeat keeps_step.
Qed.

#[export] Hint Resolve keeps_replay_pending : keeps.

Lemma keeps_handle_incoming_arp config of_packet data_packet :
  keeps_translations (handle_incoming_arp config of_packet data_packet).
Proof.
  unfold handle_incoming_arp, send_arp_reply, arp_header. repeat keeps_step.
Qed.

Lemma keeps_handle_incoming_external_msg config of_packet data_packet :
  keeps_translations (handle_incoming_external_msg config of_packet data_packet).
Proof.
  unfold handle_incoming_external_msg, dict_mem, sleep. repeat keeps_step.
Qed.

(** Only a frame that is neither ARP nor addressed to the external side can
    reach [add_nat_entry]. *)
Lemma inbound_keeps_translations config of_packet :
  eth_dst (eth (data of_packet)) = nat_external_mac config →
  keeps_translations (handle_packet_in config of_packet).
Proof.
  intros Hdst. unfold handle_packet_in, switch_learn. rewrite decide_True by done.
  repeat keeps_step.
  - apply keeps_handle_incoming_arp.
  - apply keeps_handle_incoming_external_msg.
Qed.

(** ** Frames for the external side *)

Section External.

Variable config : nat_config.

(** The transport destination port of a TCP or UDP frame: [proto] says
    which header is read. *)
Definition transport_dst_port (data_packet : Packet) (iph : ipv4) : option Z :=
  if decide (ip_proto iph = IPPROTO_TCP) then tcp_dst_port <$> get_tcp data_packet
  else if decide (ip_proto iph = IPPROTO_UDP) then udp_dst_port <$> get_udp data_packet
  else None.

Lemma external_miss_dropped of_packet data_packet iph port_nat (s : NatController) :
  ethertype (eth data_packet) = 2048 →
  get_ipv4 data_packet = Some iph →
  transport_dst_port data_packet iph = Some port_nat →
  nat_lookup s port_nat = None →
  handle_incoming_external_msg config of_packet data_packet s = (Normal tt, s).
Proof.
  intros Hty Hip Hport Hmiss.
  unfold handle_incoming_external_msg, is_ipv4, transport_dst_port, nat_lookup in *.
  rewrite bool_decide_true by done. rewrite Hip. unfold attr_of. unfold_monad.
  destruct (decide (ip_proto iph = IPPROTO_TCP)).
  - destruct (get_tcp data_packet) as [t|]; [|done].
    injection Hport as <-. rewrite Hmiss.
    rewrite (bool_decide_false (is_Some None)) by (by intros [? ?]).
    by rewrite orb_true_r.
  - destruct (decide (ip_proto iph = IPPROTO_UDP)); [|done].
    destruct (get_udp data_packet) as [u|]; [|done].
    injection Hport as <-. rewrite Hmiss.
    rewrite (bool_decide_false (is_Some None)) by (by intros [? ?]).
    by rewrite orb_true_r.
Qed.

Lemma external_unsupported_transport_dropped of_packet data_packet iph
    (s : NatController) :
  ethertype (eth data_packet) = 2048 →
  get_ipv4 data_packet = Some iph →
  ip_proto iph ≠ IPPROTO_TCP → ip_proto iph ≠ IPPROTO_UDP →
  handle_incoming_external_msg config of_packet data_packet s = (Normal tt, s).
Proof.
  intros Hty Hip Htcp Hudp. unfold handle_incoming_external_msg, is_ipv4.
  rewrite bool_decide_true by done. rewrite Hip. unfold attr_of. unfold_monad.
  by rewrite !decide_False by done.
Qed.

(** A hit whose internal host is not resolved: the request for it is queued
    (and broadcast if it is the first), and line 308 raises. *)
Lemma external_hit_unresolved_raises of_packet data_packet iph port_nat
    (internal : ip * Z) (s : NatController) :
  ethertype (eth data_packet) = 2048 →
  get_ipv4 data_packet = Some iph →
  transport_dst_port data_packet iph = Some port_nat →
  port_nat ≠ 0 →
  nat_lookup s port_nat = Some internal →
  arp_table s !! internal.1 = None →
  ∃ s' : NatController,
    handle_incoming_external_msg config of_packet data_packet s
      = (Raised (KeyError internal.1), s') ∧
    pending_arp s' !! internal.1
      = Some (default [] (pending_arp s !! internal.1) ++ [(of_packet, None, None)]).
Proof.
  intros Hty Hip Hport Hnz Hhit Hunres.
  unfold handle_incoming_external_msg, is_ipv4, transport_dst_port, nat_lookup, sleep in *.
  rewrite bool_decide_true by done. rewrite Hip. unfold attr_of. unfold_monad.
  assert (Hq : ∃ s' : NatController,
            send_arp_request config internal.1 of_packet None None s = (Normal tt, s') ∧
            arp_table s' = arp_table s ∧
            pending_arp s' !! internal.1
              = Some (default [] (pending_arp s !! internal.1) ++ [(of_packet, None, None)])).
  { destruct (pending_arp s !! internal.1) as [q|] eqn:Hq.
    - eexists. split; [by apply send_arp_request_queued|].
      split; [done|]. simpl. by rewrite lookup_insert_eq.
    - eexists. split; [by apply send_arp_request_fresh|].
      split; [done|]. simpl. by rewrite lookup_insert_eq. }
  destruct Hq as (s' & Hreq & Harp & Hpend). exists s'.
  destruct (decide (ip_proto iph = IPPROTO_TCP)).
  - destruct (get_tcp data_packet) as [t|]; [|done].
    injection Hport as <-. rewrite Hhit.
    rewrite (bool_decide_false (_ = 0)) by done.
    rewrite (bool_decide_true (is_Some _)) by done. cbn [orb negb].
    rewrite Hhit, Hunres.
    rewrite (bool_decide_false (is_Some None)) by (by intros [? ?]).
    cbn [negb]. rewrite Hreq, Harp, Hunres. done.
  - destruct (decide (ip_proto iph = IPPROTO_UDP)); [|done].
    destruct (get_udp data_packet) as [u|]; [|done].
    injection Hport as <-. rewrite Hhit.
    rewrite (bool_decide_false (_ = 0)) by done.
    rewrite (bool_decide_true (is_Some _)) by done. cbn [orb negb].
    rewrite Hhit, Hunres.
    rewrite (bool_decide_false (is_Some None)) by (by intros [? ?]).
    cbn [negb]. rewrite Hreq, Harp, Hunres. done.
Qed.

(** A hit whose internal host is resolved to a link address the switch
    table does not hold: [out_port] is read on line 321 (331) without having
    been assigned, and the controller is left as it was. *)
Lemma external_hit_unlearned_raises of_packet data_packet iph port_nat
    (internal : ip * Z) (host_mac : mac) (s : NatController) :
  ethertype (eth data_packet) = 2048 →
  get_ipv4 data_packet = Some iph →
  transport_dst_port data_packet iph = Some port_nat →
  port_nat ≠ 0 →
  nat_lookup s port_nat = Some internal →
  arp_table s !! internal.1 = Some host_mac →
  switch_table s !! host_mac = None →
  handle_incoming_external_msg config of_packet data_packet s
    = (Raised (UnboundLocalError "out_port"), s).
Proof.
  intros Hty Hip Hport Hnz Hhit Hres Hunl.
  unfold handle_incoming_external_msg, is_ipv4, transport_dst_port, nat_lookup, sleep in *.
  rewrite bool_decide_true by done. rewrite Hip. unfold attr_of. unfold_monad.
  destruct (decide (ip_proto iph = IPPROTO_TCP)).
  - destruct (get_tcp data_packet) as [t|]; [|done].
    injection Hport as <-. rewrite Hhit.
    rewrite (bool_decide_false (_ = 0)) by done.
    rewrite (bool_decide_true (is_Some _)) by done. cbn [orb negb].
    rewrite Hhit, Hres. rewrite (bool_decide_true (is_Some _)) by done.
    cbn [negb]. rewrite Hres, Hunl. done.
  - destruct (decide (ip_proto iph = IPPROTO_UDP)); [|done].
    destruct (get_udp data_packet) as [u|]; [|done].
    injection Hport as <-. rewrite Hhit.
    rewrite (bool_decide_false (_ = 0)) by done.
    rewrite (bool_decide_true (is_Some _)) by done. cbn [orb negb].
    rewrite Hhit, Hres. rewrite (bool_decide_true (is_Some _)) by done.
    cbn [negb]. rewrite Hres, Hunl. done.
Qed.
End External.

(** C6: a TCP or UDP frame addressed to the gateway's external link address
    whose transport destination port has no entry in the translation table
    is handled without an exception and changes nothing but the learning
    table: nothing is sent, no rule is installed, and the resolution table,
    the pending queues, the translation table and its counter are as
    before.  And whatever a frame addressed to the external link address
    holds, handling it leaves the translation table and its counter as they
    were. *)
Theorem C6_inbound_translation_miss_dropped
    (config : nat_config) (of_packet : PacketIn) (s : NatController) :
  (∀ (iph : ipv4) (port_nat : Z),
     ethertype (eth (data of_packet)) = 2048 →
     eth_dst (eth (data of_packet)) = nat_external_mac config →
     get_ipv4 (data of_packet) = Some iph →
     transport_dst_port (data of_packet) iph = Some port_nat →
     nat_lookup s port_nat = None →
     handle_packet_in config of_packet s =
       (Normal tt,
        set_switch_table <[eth_src (eth (data of_packet)) := in_port of_packet]> s)) ∧
  (eth_dst (eth (data of_packet)) = nat_external_mac config →
   nat_translation (handle_packet_in config of_packet s).2 = nat_translation s ∧
   nat_port (handle_packet_in config of_packet s).2 = nat_port s).
Proof.
  split.
  - intros iph port_nat Hty Hdst Hip Hport Hmiss.
    unfold handle_packet_in, is_ipv6, is_arp, switch_learn. rewrite Hty.
    rewrite !bool_decide_false by done. unfold_monad.
    rewrite decide_True by done.
    by apply external_miss_dropped with iph port_nat.
  - intros Hdst. by apply inbound_keeps_translations.
Qed.

(** C6 on the network of [Scenario]: an answer for external port 3000
    reaches a controller that has no translation. *)
Lemma C6_inbound_translation_miss_dropped_witness :
  handle_packet_in Scenario.cfg Scenario.tcp_in init =
    (Normal tt, set_switch_table <["00:00:00:00:01:fe" := 3]> init).
Proof.
  apply (C6_inbound_translation_miss_dropped Scenario.cfg Scenario.tcp_in init)
    with {| ip_src := "198.51.100.7"; ip_dst := "203.0.113.1"; ip_proto := 6 |} 3000;
    reflexivity.
Defined.

(** ** Frames from the internal network *)

Section Internal.

Variable config : nat_config.

(** An IPv4 frame for an internal destination that is not ICMP, TCP or UDP,
    or for an external destination that is not TCP or UDP, leaves [match]
    unassigned: [add_flow] is never reached, and the controller is left as
    it was. *)
Lemma internal_unsupported_transport_raises of_packet data_packet iph
    (s : NatController) :
  ethertype (eth data_packet) = 2048 →
  get_ipv4 data_packet = Some iph →
  ip_proto iph ≠ IPPROTO_TCP → ip_proto iph ≠ IPPROTO_UDP →
  (nat_internal_net config (ip_dst iph) = true → ip_proto iph ≠ IPPROTO_ICMP) →
  handle_incoming_internal_msg config of_packet data_packet s =
    (Raised (UnboundLocalError "match"), s).
Proof.
  intros Hty Hip Htcp Hudp Hicmp.
  unfold handle_incoming_internal_msg, is_ipv4, is_internal_network.
  rewrite bool_decide_true by done. rewrite Hip. unfold attr_of. unfold_monad.
  destruct (nat_internal_net config (ip_dst iph)).
  - by rewrite !decide_False by auto.
  - by rewrite !decide_False by done.
Qed.

End Internal.

(** C7, on the network of [Scenario]: a GRE packet for the gateway's
    external side is dropped and only learned from, but host A's ping to an
    external address, and its GRE packet to host B, end the handler with an
    unbound [match]; only the learning table has changed by then. *)
Theorem C7_unsupported_transport_on_internal_paths_raises :
  handle_packet_in Scenario.cfg Scenario.gre_in init =
    (Normal tt, set_switch_table <["00:00:00:00:01:fe" := 3]> init) ∧
  handle_packet_in Scenario.cfg Scenario.icmp_out init =
    (Raised (UnboundLocalError "match"),
     set_switch_table <["00:00:00:00:00:0a" := 1]> init) ∧
  handle_packet_in Scenario.cfg Scenario.gre_local init =
    (Raised (UnboundLocalError "match"),
     set_switch_table <["00:00:00:00:00:0a" := 1]> init).
Proof. repeat split; by vm_compute. Qed.

(** C10: the handler for the external side is not total on hits.  For
    any TCP or UDP frame whose destination port has a translation, it ends
    with a [KeyError] when the internal address is not resolved (the request
    for it has been queued by then), and with an unbound [out_port] when the
    internal address is resolved to a link address the switch table does not
    hold.  Both happen on the network of [Scenario]: with the translation
    3000 -> (10.0.0.2, 40000) in place, for the answer addressed to external
    port 3000, in [waiting] and in [announced]. *)
Theorem C10_inbound_hit_raises :
  (∀ config of_packet data_packet iph port_nat (internal : ip * Z) (s : NatController),
     ethertype (eth data_packet) = 2048 →
     get_ipv4 data_packet = Some iph →
     transport_dst_port data_packet iph = Some port_nat →
     port_nat ≠ 0 →
     nat_lookup s port_nat = Some internal →
     arp_table s !! internal.1 = None →
     (handle_incoming_external_msg config of_packet data_packet s).1
       = Raised (KeyError internal.1)) ∧
  (∀ config of_packet data_packet iph port_nat (internal : ip * Z) host_mac
     (s : NatController),
     ethertype (eth data_packet) = 2048 →
     get_ipv4 data_packet = Some iph →
     transport_dst_port data_packet iph = Some port_nat →
     port_nat ≠ 0 →
     nat_lookup s port_nat = Some internal →
     arp_table s !! internal.1 = Some host_mac →
     switch_table s !! host_mac = None →
     (handle_incoming_external_msg config of_packet data_packet s).1
       = Raised (UnboundLocalError "out_port")) ∧
  nat_lookup Scenario.waiting 3000 = Some ("10.0.0.2", 40000) ∧
  arp_table Scenario.waiting !! "10.0.0.2" = None ∧
  (handle_packet_in Scenario.cfg Scenario.tcp_in Scenario.waiting).1
    = Raised (KeyError "10.0.0.2") ∧
  nat_lookup Scenario.announced 3000 = Some ("10.0.0.2", 40000) ∧
  arp_table Scenario.announced !! "10.0.0.2" = Some "00:00:00:00:00:aa" ∧
  switch_table Scenario.announced !! "00:00:00:00:00:aa" = None ∧
  (handle_packet_in Scenario.cfg Scenario.tcp_in Scenario.announced).1
    = Raised (UnboundLocalError "out_port").
Proof.
  split.
  { intros config of_packet data_packet iph port_nat internal s
      Hty Hip Hport Hnz Hhit Hunres.
    destruct (external_hit_unresolved_raises config of_packet data_packet iph port_nat
                internal s Hty Hip Hport Hnz Hhit Hunres) as (s' & -> & _).
    done. }
  split.
  { intros config of_packet data_packet iph port_nat internal host_mac s
      Hty Hip Hport Hnz Hhit Hres Hunl.
    by rewrite (external_hit_unlearned_raises config of_packet data_packet iph port_nat
                  internal host_mac s). }
  repeat split; by vm_compute.
Qed.

(** ** The order of rule and frame on the way out *)

Section Outbound.

Variable config : nat_config.

(** The match and the translation actions lines 396-421 build for a TCP or
    UDP frame bound for the external network, in a controller whose next
    free external port is [nat_port s]. *)
Definition translated_flow (s : NatController) (data_packet : Packet) (iph : ipv4)
    : option (OFPMatch * list action * Z) :=
  let out_port := switch_out_port s (eth_dst (eth data_packet)) in
  if decide (ip_proto iph = IPPROTO_TCP) then
    t ← get_tcp data_packet;
    Some (mkMatch ETH_TYPE_IP (ip_src iph) (ip_dst iph) (ip_proto iph)
            (TcpPorts (tcp_src_port t) (tcp_dst_port t)),
          [OFPActionSetField (F_ipv4_src (nat_external_ip config));
           OFPActionSetField (F_tcp_src (nat_port s));
           OFPActionSetField (F_eth_src (nat_external_mac config));
           OFPActionOutput out_port],
          tcp_src_port t)
  else if decide (ip_proto iph = IPPROTO_UDP) then
    u ← get_udp data_packet;
    Some (mkMatch ETH_TYPE_IP (ip_src iph) (ip_dst iph) (ip_proto iph)
            (UdpPorts (udp_src_port u) (udp_dst_port u)),
          [OFPActionSetField (F_ipv4_src (nat_external_ip config));
           OFPActionSetField (F_udp_src (nat_port s));
           OFPActionSetField (F_eth_src (nat_external_mac config));
           OFPActionOutput out_port],
          udp_src_port u)
  else None.

Lemma internal_to_external_resolved of_packet data_packet iph m acts sport gw_mac
    (s : NatController) :
  ethertype (eth data_packet) = 2048 →
  get_ipv4 data_packet = Some iph →
  nat_internal_net config (ip_dst iph) = false →
  translated_flow s data_packet iph = Some (m, acts, sport) →
  arp_table s !! nat_gateway_ip config = Some gw_mac →
  handle_incoming_internal_msg config of_packet data_packet s =
    (Normal tt,
     emit (OFPFlowMod (datapath of_packet) m acts
           :: forwarded config s (nat_gateway_ip config) gw_mac of_packet data_packet
                (Some m) (Some acts))
       (set_nat_port (λ p, p + 1)
          (set_nat_translation <[str (nat_port s) := (ip_src iph, sport)]> s))).
Proof.
  intros Hty Hip Hext Hflow Hgw.
  unfold handle_incoming_internal_msg, is_ipv4, is_internal_network.
  rewrite bool_decide_true by done. rewrite Hip.
  unfold translated_flow in Hflow. unfold attr_of, add_nat_entry. unfold_monad.
  cbv zeta. rewrite Hext.
  destruct (decide (ip_proto iph = IPPROTO_TCP)).
  - destruct (get_tcp data_packet) as [t|]; [|done].
    injection Hflow as <- <- <-.
    rewrite (router_forward_known _ _ _ _ gw_mac) by done.
    by rewrite emit_emit.
  - destruct (decide (ip_proto iph = IPPROTO_UDP)); [|done].
    destruct (get_udp data_packet) as [u|]; [|done].
    injection Hflow as <- <- <-.
    rewrite (router_forward_known _ _ _ _ gw_mac) by done.
    by rewrite emit_emit.
Qed.

End Outbound.

(** Every rule for [mtch] in [msgs] comes after a packet-out of [frame]. *)
Definition rule_follows_frame (mtch : OFPMatch) (frame : Packet) (msgs : list Msg) : Prop :=
  ∀ (i : nat) dp acts,
    msgs !! i = Some (OFPFlowMod dp mtch acts) →
    ∃ (j : nat) dp' inport acts',
      (j < i)%nat ∧ msgs !! j = Some (OFPPacketOut dp' inport acts' frame).

(** C4 does not hold with "every rule for the flow follows the frame": on
    the network of [Scenario], with the next hop resolved, the first message
    for host A's second connection is a rule for the flow's match, sent
    before any packet-out of the frame. *)
Lemma C4_rule_sent_before_first_packet :
  ¬ rule_follows_frame
      {| m_eth_type := 2048; m_ipv4_src := "10.0.0.2"; m_ipv4_dst := "198.51.100.7";
         m_ip_proto := 6; m_ports := TcpPorts 40001 80 |}
      (data Scenario.tcp_out2)
      (new_since Scenario.resolved
         (handle_packet_in Scenario.cfg Scenario.tcp_out2 Scenario.resolved).2).
Proof.
  intros Hfollows.
  destruct (Hfollows 0%nat 1
              [OFPActionSetField (F_ipv4_src "203.0.113.1");
               OFPActionSetField (F_tcp_src 3001);
               OFPActionSetField (F_eth_src "00:00:00:00:01:00");
               OFPActionOutput OFPP_FLOOD])
    as (j & _ & _ & _ & Hlt & _); [by vm_compute | lia].
Qed.

(** C4, as the code has it: for a TCP or UDP frame bound for the external
    network, with the next hop resolved, the handler ends normally having
    sent exactly three messages: a rule for the flow's match with the
    translation actions; the frame, with the next-hop rewrite, the
    translation actions and the output action; and a second rule for the
    same match with the action list of the frame just sent.  The rule of
    [router_forward] follows the frame, the rule of line 423 precedes it. *)
Theorem C4_rule_before_and_after_first_packet
    (config : nat_config) (of_packet : PacketIn) (data_packet : Packet) (iph : ipv4)
    (m : OFPMatch) (acts : list action) (sport : Z) (gw_mac : mac) (s : NatController) :
  ethertype (eth data_packet) = 2048 →
  get_ipv4 data_packet = Some iph →
  nat_internal_net config (ip_dst iph) = false →
  translated_flow config s data_packet iph = Some (m, acts, sport) →
  arp_table s !! nat_gateway_ip config = Some gw_mac →
  ∃ s' : NatController,
    handle_incoming_internal_msg config of_packet data_packet s = (Normal tt, s') ∧
    sent s' =
      sent s ++
      [OFPFlowMod (datapath of_packet) m acts;
       OFPPacketOut (datapath of_packet) (in_port of_packet)
         (router_next_hop (nat_external_mac config) gw_mac ++ acts
          ++ [OFPActionOutput (switch_out_port s (eth_dst (eth data_packet)))])
         (data of_packet);
       OFPFlowMod (datapath of_packet) m
         (router_next_hop (nat_external_mac config) gw_mac ++ acts
          ++ [OFPActionOutput (switch_out_port s (eth_dst (eth data_packet)))])].
Proof.
  intros Hty Hip Hext Hflow Hgw. eexists. split.
  - by eapply internal_to_external_resolved.
  - unfold forwarded, next_hop_src. rewrite decide_True by done. reflexivity.
Qed.

(** C4 on the network of [Scenario]: host A's second connection, with the
    next hop resolved. *)
Lemma C4_rule_before_and_after_first_packet_witness :
  ∃ s' : NatController,
    handle_incoming_internal_msg Scenario.cfg Scenario.tcp_out2
      (data Scenario.tcp_out2) Scenario.resolved = (Normal tt, s') ∧
    length (sent s') = (length (sent Scenario.resolved) + 3)%nat.
Proof.
  destruct (C4_rule_before_and_after_first_packet Scenario.cfg Scenario.tcp_out2
              (data Scenario.tcp_out2)
              {| ip_src := "10.0.0.2"; ip_dst := "198.51.100.7"; ip_proto := 6 |}
              {| m_eth_type := 2048; m_ipv4_src := "10.0.0.2";
                 m_ipv4_dst := "198.51.100.7"; m_ip_proto := 6;
                 m_ports := TcpPorts 40001 80 |}
              [OFPActionSetField (F_ipv4_src "203.0.113.1");
               OFPActionSetField (F_tcp_src 3001);
               OFPActionSetField (F_eth_src "00:00:00:00:01:00");
               OFPActionOutput OFPP_FLOOD]
              40001 "00:00:00:00:01:fe" Scenario.resolved)
    as (s' & Hrun & Hsent); try (by vm_compute).
  exists s'. split; [exact Hrun|]. rewrite Hsent, length_app. reflexivity.
Defined.

(** * More of the controller *)

(** ** What a handler leaves alone *)

(** A computation that leaves a part [proj] of the controller as it was,
    however it ends. *)
Definition preserves {A B} (proj : NatController → B) (c : M A) : Prop :=
  ∀ s, proj (c s).2 = proj s.

Section Preserves.

Context {B : Type} (proj : NatController → B).

Lemma preserves_ret {A} (a : A) : preserves proj (mret a).
Proof. by intros s. Qed.

Lemma preserves_raise {A} (e : exn) : preserves proj (@raise A e).
Proof. by intros s. Qed.

Lemma preserves_gets {A} (f : NatController → A) : preserves proj (gets f).
Proof. by intros s. Qed.

Lemma preserves_bind {A C} (c : M A) (k : A → M C) :
  preserves proj c → (∀ a, preserves proj (k a)) → preserves proj (c ≫= k).
Proof.
  intros Hc Hk s. unfold mbind, M_bind. specialize (Hc s).
  destruct (c s) as [[a|e] s1]; simpl in *; [|done].
  by rewrite Hk.
Qed.

Lemma preserves_modify (f : NatController → NatController) :
  (∀ s, proj (f s) = proj s) → preserves proj (modify f).
Proof. intros Hf s. apply Hf. Qed.

Lemma preserves_dict_get {V} (d : NatController → gmap string V) k :
  preserves proj (dict_get d k).
Proof. intros s. unfold dict_get. by destruct (d s !! k). Qed.

Lemma preserves_local {A} var (v : option A) : preserves proj (local var v).
Proof. destruct v; [apply preserves_ret|apply preserves_raise]. Qed.

Lemma preserves_attr_of {A} attr (o : option A) : preserves proj (attr_of attr o).
Proof. destruct o; [apply preserves_ret|apply preserves_raise]. Qed.

(** The parts [proj] may not look at, one hypothesis for each field a
    handler writes. *)
Hypothesis proj_sent : ∀ f s, proj (set_sent f s) = proj s.
Hypothesis proj_pending : ∀ f s, proj (set_pending_arp f s) = proj s.

Ltac preserves_step :=
  match goal with
  | |- preserves _ (_ ≫= _) => apply preserves_bind; [|intros ?]
  | |- preserves _ (modify (emit _)) => apply preserves_modify; intros ?; apply proj_sent
  | |- preserves _ (modify (set_pending_arp _)) =>
      apply preserves_modify; intros ?; apply proj_pending
  | |- preserves _ (if ?b then _ else _) => destruct b
  | |- preserves _ (match ?x with _ => _ end) => destruct x
  | |- preserves _ _ =>
      first [ apply preserves_ret | apply preserves_raise | apply preserves_gets
            | apply preserves_dict_get | apply preserves_local | apply preserves_attr_of
            | assumption ]
  end.

Lemma preserves_send_packet payload of_packet port actions :
  preserves proj (send_packet payload of_packet port actions).
Proof. unfold send_packet, send_msg. repeat preserves_step. Qed.

Lemma preserves_add_flow switch m actions : preserves proj (add_flow switch m actions).
Proof. unfold add_flow, send_msg. repeat preserves_step. Qed.

Lemma preserves_switch_forward of_packet data_packet actions :
  preserves proj (switch_forward of_packet data_packet actions).
Proof. unfold switch_forward. repeat preserves_step. apply preserves_send_packet. Qed.

Lemma preserves_send_arp_request config target of_packet m actions :
  preserves proj (send_arp_request config target of_packet m actions).
Proof. unfold send_arp_request. repeat preserves_step. apply preserves_send_packet. Qed.

Lemma preserves_router_forward config of_packet data_packet next_ip m extra :
  preserves proj (router_forward config of_packet data_packet next_ip m extra).
Proof.
  unfold router_forward, dict_mem.
  repeat first [ apply preserves_send_arp_request | apply preserves_switch_forward
               | apply preserves_add_flow | preserves_step ].
Qed.

Lemma preserves_replay_pending config target queue :
  ∀ of_packet, preserves proj (replay_pending config target queue of_packet).
Proof.
  induction queue as [|[[ofp m] extra] queue IH]; intros of_packet; simpl.
  - apply preserves_ret.
  - apply preserves_bind; [apply preserves_router_forward|intros _; apply IH].
Qed.

Lemma preserves_handle_incoming_external_msg config of_packet data_packet :
  preserves proj (handle_incoming_external_msg config of_packet data_packet).
Proof.
  unfold handle_incoming_external_msg, dict_mem, sleep.
  repeat first [ apply preserves_send_arp_request | apply preserves_switch_forward
               | apply preserves_add_flow | preserves_step ].
Qed.

Lemma preserves_handle_incoming_arp config of_packet data_packet :
  (∀ f s, proj (set_arp_table f s) = proj s) →
  preserves proj (handle_incoming_arp config of_packet data_packet).
Proof.
  intros proj_arp. unfold handle_incoming_arp, send_arp_reply, arp_header.
  repeat first [ apply preserves_replay_pending | apply preserves_switch_forward
               | apply preserves_send_packet
               | apply preserves_modify; intros ?; apply proj_arp
               | preserves_step ].
Qed.

Lemma preserves_handle_incoming_internal_msg config of_packet data_packet :
  (∀ f s, proj (set_nat_translation f s) = proj s) →
  (∀ f s, proj (set_nat_port f s) = proj s) →
  preserves proj (handle_incoming_internal_msg config of_packet data_packet).
Proof.
  intros proj_tr proj_port. unfold handle_incoming_internal_msg, add_nat_entry.
  repeat first [ apply preserves_router_forward | apply preserves_switch_forward
               | apply preserves_add_flow
               | apply preserves_modify; intros ?; apply proj_tr
               | apply preserves_modify; intros ?; apply proj_port
               | preserves_step ].
Qed.

End Preserves.

(** ** What every packet-in does to the learning and resolution tables *)

Lemma handlers_preserve_switch_table config of_packet data_packet :
  preserves switch_table (handle_incoming_arp config of_packet data_packet) ∧
  preserves switch_table (handle_incoming_external_msg config of_packet data_packet) ∧
  preserves switch_table (handle_incoming_internal_msg config of_packet data_packet).
Proof.
  split; [|split].
  - by apply preserves_handle_incoming_arp.
  - by apply preserves_handle_incoming_external_msg.
  - by apply preserves_handle_incoming_internal_msg.
Qed.

(** The state [handle_packet_in] hands to the handler it picks. *)
Lemma handle_packet_in_learned config of_packet (s : NatController) :
  ethertype (eth (data of_packet)) ≠ 34525 →
  handle_packet_in config of_packet s =
    (if is_arp (data of_packet) then
       handle_incoming_arp config of_packet (data of_packet)
     else if decide (eth_dst (eth (data of_packet)) = nat_external_mac config) then
       handle_incoming_external_msg config of_packet (data of_packet)
     else handle_incoming_internal_msg config of_packet (data of_packet))
      (set_switch_table <[eth_src (eth (data of_packet)) := in_port of_packet]> s).
Proof.
  intros Hty. unfold handle_packet_in, is_ipv6, switch_learn.
  by rewrite bool_decide_false by done.
Qed.

(** X1: whatever a frame that is not IPv6 holds, and whether its handler
    ends normally or with an exception, afterwards the learning table maps
    the frame's source link address to its ingress port and is otherwise as
    before.  An IPv6 frame changes nothing at all: it is not even learned
    from. *)
Theorem packet_in_learns_source_whatever_happens
    (config : nat_config) (of_packet : PacketIn) (s : NatController) :
  (ethertype (eth (data of_packet)) ≠ 34525 →
   switch_table (handle_packet_in config of_packet s).2
     = <[eth_src (eth (data of_packet)) := in_port of_packet]> (switch_table s)) ∧
  (ethertype (eth (data of_packet)) = 34525 →
   handle_packet_in config of_packet s = (Normal tt, s)).
Proof.
  split; intros Hty.
  - rewrite handle_packet_in_learned by done.
    destruct (handlers_preserve_switch_table config of_packet (data of_packet))
      as (Harp & Hext & Hint).
    destruct (is_arp (data of_packet)); [by rewrite Harp|].
    destruct (decide _); [by rewrite Hext|by rewrite Hint].
  - unfold handle_packet_in, is_ipv6. by rewrite bool_decide_true by done.
Qed.

(** X2: a frame whose ethertype is none of ARP, IPv4 and IPv6 (LLDP, a
    VLAN tag, ...) is learned from and then dropped: nothing is sent, not
    even a flood, and no other table changes, whichever side it is addressed
    to. *)
Theorem other_ethertype_learned_and_dropped
    (config : nat_config) (of_packet : PacketIn) (s : NatController) :
  ethertype (eth (data of_packet)) ≠ 2054 →
  ethertype (eth (data of_packet)) ≠ 2048 →
  ethertype (eth (data of_packet)) ≠ 34525 →
  handle_packet_in config of_packet s =
    (Normal tt,
     set_switch_table <[eth_src (eth (data of_packet)) := in_port of_packet]> s).
Proof.
  intros Harp Hip4 Hip6. rewrite handle_packet_in_learned by done.
  unfold is_arp. rewrite bool_decide_false by done.
  unfold handle_incoming_external_msg, handle_incoming_internal_msg, is_ipv4.
  rewrite !bool_decide_false by done.
  by destruct (decide _).
Qed.

(** The sender an ARP frame announces, when the frame is handled as one. *)
Definition arp_sender (of_packet : PacketIn) : option arp :=
  if is_arp (data of_packet) && negb (is_ipv6 (data of_packet)) then
    match upper (data of_packet) with
    | HArp a :: _ => Some a
    | _ => None
    end
  else None.

(** X3: the resolution table is written by ARP frames only, and only at
    the address of the sender they announce: after any packet-in it is the
    table as it was with the sender's network address bound to the sender's
    link address when the frame is an ARP frame, and the table as it was
    otherwise, whether the handler ended normally or not. *)
Theorem only_arp_frames_resolve
    (config : nat_config) (of_packet : PacketIn) (s : NatController) :
  arp_table (handle_packet_in config of_packet s).2 =
    match arp_sender of_packet with
    | Some a => <[src_ip a := src_mac a]> (arp_table s)
    | None => arp_table s
    end.
Proof.
  unfold arp_sender.
  destruct (decide (ethertype (eth (data of_packet)) = 34525)) as [Hv6|Hv6].
  { unfold handle_packet_in, is_ipv6, is_arp. rewrite Hv6.
    rewrite bool_decide_true by done. by rewrite bool_decide_false by done. }
  rewrite handle_packet_in_learned by done.
  unfold is_ipv6. rewrite (bool_decide_false _ Hv6). rewrite andb_true_r.
  destruct (is_arp (data of_packet)).
  - destruct (upper (data of_packet)) as [|[a| | |] hs] eqn:Hup.
    + unfold handle_incoming_arp, arp_header. by rewrite Hup.
    + by rewrite (handle_incoming_arp_run _ _ _ a hs).
    + unfold handle_incoming_arp, arp_header. by rewrite Hup.
    + unfold handle_incoming_arp, arp_header. by rewrite Hup.
    + unfold handle_incoming_arp, arp_header. by rewrite Hup.
  - destruct (decide _).
    + by rewrite (preserves_handle_incoming_external_msg arp_table).
    + by rewrite (preserves_handle_incoming_internal_msg arp_table).
Qed.

(** ** The paths that forward *)

(** The transport ports of a TCP or UDP frame, as a match holds them:
    [proto] says which header is read. *)
Definition transport_ports (data_packet : Packet) (iph : ipv4) : option match_ports :=
  if decide (ip_proto iph = IPPROTO_TCP) then
    (λ t, TcpPorts (tcp_src_port t) (tcp_dst_port t)) <$> get_tcp data_packet
  else if decide (ip_proto iph = IPPROTO_UDP) then
    (λ u, UdpPorts (udp_src_port u) (udp_dst_port u)) <$> get_udp data_packet
  else None.

Definition ports_src (tp : match_ports) : Z :=
  match tp with
  | TcpPorts sport _ | UdpPorts sport _ => sport
  | NoPorts => 0
  end.

Definition ports_dst (tp : match_ports) : Z :=
  match tp with
  | TcpPorts _ dport | UdpPorts _ dport => dport
  | NoPorts => 0
  end.

(** The field a translation rewrites on the way in, and on the way out. *)
Definition dst_port_field (tp : match_ports) (p : Z) : ofp_field :=
  match tp with
  | UdpPorts _ _ => F_udp_dst p
  | _ => F_tcp_dst p
  end.

Definition src_port_field (tp : match_ports) (p : Z) : ofp_field :=
  match tp with
  | UdpPorts _ _ => F_udp_src p
  | _ => F_tcp_src p
  end.

Section Paths.

Variable config : nat_config.

(** A hit, with the internal host resolved and learned. *)
Lemma external_hit_run of_packet data_packet iph tp (internal : ip * Z)
    (host_mac : mac) (out_port : Z) (s : NatController) :
  ethertype (eth data_packet) = 2048 →
  get_ipv4 data_packet = Some iph →
  transport_ports data_packet iph = Some tp →
  ports_dst tp ≠ 0 →
  nat_lookup s (ports_dst tp) = Some internal →
  arp_table s !! internal.1 = Some host_mac →
  switch_table s !! host_mac = Some out_port →
  handle_incoming_external_msg config of_packet data_packet s =
    (Normal tt,
     emit [OFPFlowMod (datapath of_packet)
             (mkMatch ETH_TYPE_IP (ip_src iph) (ip_dst iph) (ip_proto iph) tp)
             [OFPActionSetField (F_ipv4_dst internal.1);
              OFPActionSetField (dst_port_field tp internal.2);
              OFPActionSetField (F_eth_src (nat_internal_mac config));
              OFPActionSetField (F_eth_dst host_mac);
              OFPActionOutput out_port];
           OFPPacketOut (datapath of_packet) (in_port of_packet)
             [OFPActionSetField (F_ipv4_dst internal.1);
              OFPActionSetField (dst_port_field tp internal.2);
              OFPActionSetField (F_eth_src (nat_internal_mac config));
              OFPActionSetField (F_eth_dst host_mac);
              OFPActionOutput out_port;
              OFPActionOutput (switch_out_port s (eth_dst (eth data_packet)))]
             (data of_packet)] s).
Proof.
  intros Hty Hip Hport Hnz Hhit Hres Hlearned.
  unfold handle_incoming_external_msg, is_ipv4, transport_ports, nat_lookup, sleep in *.
  rewrite bool_decide_true by done. rewrite Hip. unfold attr_of. unfold_monad.
  destruct (decide (ip_proto iph = IPPROTO_TCP)).
  - destruct (get_tcp data_packet) as [t|]; [|done].
    injection Hport as <-. cbn [ports_dst] in *. rewrite Hhit.
    rewrite (bool_decide_false (_ = 0)) by done.
    rewrite (bool_decide_true (is_Some _)) by done. cbn [orb negb].
    rewrite Hhit, Hres. rewrite (bool_decide_true (is_Some _)) by done.
    cbn [negb]. rewrite Hres, Hlearned. rewrite switch_forward_run.
    by rewrite emit_emit.
  - destruct (decide (ip_proto iph = IPPROTO_UDP)); [|done].
    destruct (get_udp data_packet) as [u|]; [|done].
    injection Hport as <-. cbn [ports_dst] in *. rewrite Hhit.
    rewrite (bool_decide_false (_ = 0)) by done.
    rewrite (bool_decide_true (is_Some _)) by done. cbn [orb negb].
    rewrite Hhit, Hres. rewrite (bool_decide_true (is_Some _)) by done.
    cbn [negb]. rewrite Hres, Hlearned. rewrite switch_forward_run.
    by rewrite emit_emit.
Qed.

(** The match lines 373-384 build for a frame between two internal hosts. *)
Definition local_match (data_packet : Packet) (iph : ipv4) : option OFPMatch :=
  if decide (ip_proto iph = IPPROTO_ICMP) then
    Some (mkMatch ETH_TYPE_IP (ip_src iph) (ip_dst iph) (ip_proto iph) NoPorts)
  else mkMatch ETH_TYPE_IP (ip_src iph) (ip_dst iph) (ip_proto iph)
         <$> transport_ports data_packet iph.

Lemma internal_to_internal_run of_packet data_packet iph m (s : NatController) :
  ethertype (eth data_packet) = 2048 →
  get_ipv4 data_packet = Some iph →
  nat_internal_net config (ip_dst iph) = true →
  local_match data_packet iph = Some m →
  handle_incoming_internal_msg config of_packet data_packet s =
    (Normal tt,
     emit [OFPFlowMod (datapath of_packet) m
             [OFPActionOutput (switch_out_port s (eth_dst (eth data_packet)))];
           OFPPacketOut (datapath of_packet) (in_port of_packet)
             [OFPActionOutput (switch_out_port s (eth_dst (eth data_packet)));
              OFPActionOutput (switch_out_port s (eth_dst (eth data_packet)))]
             (data of_packet)] s).
Proof.
  intros Hty Hip Hint Hm.
  unfold handle_incoming_internal_msg, is_ipv4, is_internal_network.
  rewrite bool_decide_true by done. rewrite Hip.
  unfold local_match, transport_ports in Hm. unfold attr_of. unfold_monad.
  cbv zeta. rewrite Hint.
  destruct (decide (ip_proto iph = IPPROTO_ICMP)) as [Hicmp|Hicmp].
  { injection Hm as <-. rewrite switch_forward_run. by rewrite emit_emit. }
  destruct (decide (ip_proto iph = IPPROTO_TCP)).
  { destruct (get_tcp data_packet) as [t|]; [|done].
    injection Hm as <-. rewrite switch_forward_run. by rewrite emit_emit. }
  destruct (decide (ip_proto iph = IPPROTO_UDP)); [|done].
  destruct (get_udp data_packet) as [u|]; [|done].
  injection Hm as <-. rewrite switch_forward_run. by rewrite emit_emit.
Qed.

(** The controller after [add_nat_entry] was called for [internal]. *)
Definition allocated (internal : ip * Z) (s : NatController) : NatController :=
  set_nat_port (λ p, p + 1) (set_nat_translation <[str (nat_port s) := internal]> s).

(** The translation actions lines 404-407 and 418-421 build. *)
Definition translation_actions (s : NatController) (data_packet : Packet)
    (tp : match_ports) : list action :=
  [OFPActionSetField (F_ipv4_src (nat_external_ip config));
   OFPActionSetField (src_port_field tp (nat_port s));
   OFPActionSetField (F_eth_src (nat_external_mac config));
   OFPActionOutput (switch_out_port s (eth_dst (eth data_packet)))].

(** A TCP or UDP frame for the external network: the translation is made
    and the first rule sent, and then [router_forward] is run. *)
Lemma internal_to_external_run of_packet data_packet iph tp (s : NatController) :
  ethertype (eth data_packet) = 2048 →
  get_ipv4 data_packet = Some iph →
  nat_internal_net config (ip_dst iph) = false →
  transport_ports data_packet iph = Some tp →
  handle_incoming_internal_msg config of_packet data_packet s =
    router_forward config of_packet data_packet (nat_gateway_ip config)
      (Some (mkMatch ETH_TYPE_IP (ip_src iph) (ip_dst iph) (ip_proto iph) tp))
      (Some (translation_actions s data_packet tp))
      (emit [OFPFlowMod (datapath of_packet)
               (mkMatch ETH_TYPE_IP (ip_src iph) (ip_dst iph) (ip_proto iph) tp)
               (translation_actions s data_packet tp)]
         (allocated (ip_src iph, ports_src tp) s)).
Proof.
  intros Hty Hip Hext Hport.
  unfold handle_incoming_internal_msg, is_ipv4, is_internal_network.
  rewrite bool_decide_true by done. rewrite Hip.
  unfold transport_ports in Hport. unfold attr_of, add_nat_entry. unfold_monad.
  cbv zeta. rewrite Hext.
  destruct (decide (ip_proto iph = IPPROTO_TCP)).
  - destruct (get_tcp data_packet) as [t|]; [|done].
    injection Hport as <-. reflexivity.
  - destruct (decide (ip_proto iph = IPPROTO_UDP)); [|done].
    destruct (get_udp data_packet) as [u|]; [|done].
    injection Hport as <-. reflexivity.
Qed.

End Paths.

(** The controller after [switch_learn] ran for a packet-in. *)
Definition learned (of_packet : PacketIn) (s : NatController) : NatController :=
  set_switch_table <[eth_src (eth (data of_packet)) := in_port of_packet]> s.

(** X4: a TCP or UDP frame for the gateway's external side whose
    destination port is translated, with the internal host resolved and
    learned, gets a rule for its exact flow that rewrites the destination
    address and port to the translated pair and the link addresses to the
    internal side and the host, and outputs on the host's port; the frame
    itself is sent with those actions followed by a second output action, to
    the port learned for the gateway's external link address or to all
    ports.  No table but the learning table changes. *)
Theorem inbound_hit_rewritten_and_forwarded
    (config : nat_config) (of_packet : PacketIn) (iph : ipv4) (tp : match_ports)
    (internal : ip * Z) (host_mac : mac) (out_port : Z) (s : NatController) :
  ethertype (eth (data of_packet)) = 2048 →
  eth_dst (eth (data of_packet)) = nat_external_mac config →
  get_ipv4 (data of_packet) = Some iph →
  transport_ports (data of_packet) iph = Some tp →
  ports_dst tp ≠ 0 →
  nat_lookup s (ports_dst tp) = Some internal →
  arp_table s !! internal.1 = Some host_mac →
  switch_table s !! host_mac = Some out_port →
  eth_src (eth (data of_packet)) ≠ host_mac →
  handle_packet_in config of_packet s =
    (Normal tt,
     emit [OFPFlowMod (datapath of_packet)
             (mkMatch ETH_TYPE_IP (ip_src iph) (ip_dst iph) (ip_proto iph) tp)
             [OFPActionSetField (F_ipv4_dst internal.1);
              OFPActionSetField (dst_port_field tp internal.2);
              OFPActionSetField (F_eth_src (nat_internal_mac config));
              OFPActionSetField (F_eth_dst host_mac);
              OFPActionOutput out_port];
           OFPPacketOut (datapath of_packet) (in_port of_packet)
             [OFPActionSetField (F_ipv4_dst internal.1);
              OFPActionSetField (dst_port_field tp internal.2);
              OFPActionSetField (F_eth_src (nat_internal_mac config));
              OFPActionSetField (F_eth_dst host_mac);
              OFPActionOutput out_port;
              OFPActionOutput
                (switch_out_port (learned of_packet s) (nat_external_mac config))]
             (data of_packet)]
       (learned of_packet s)).
Proof.
  intros Hty Hdst Hip Hport Hnz Hhit Hres Hlearned Hsrc.
  rewrite handle_packet_in_learned by (rewrite Hty; done).
  unfold is_arp. rewrite Hty. rewrite bool_decide_false by done.
  rewrite decide_True by done. fold (learned of_packet s).
  rewrite (external_hit_run config of_packet (data of_packet) iph tp internal
             host_mac out_port (learned of_packet s)); try done.
  - by rewrite Hdst.
  - simpl. by rewrite lookup_insert_ne.
Qed.

(** X5: an ICMP, TCP or UDP frame between two internal hosts gets a rule
    for its exact flow with a single output action, to the port learned for
    its destination link address or to all ports; the frame itself is sent
    with that output action twice.  Nothing is translated, resolved or
    queued. *)
Theorem internal_to_internal_forwarded
    (config : nat_config) (of_packet : PacketIn) (iph : ipv4) (m : OFPMatch)
    (s : NatController) :
  ethertype (eth (data of_packet)) = 2048 →
  eth_dst (eth (data of_packet)) ≠ nat_external_mac config →
  get_ipv4 (data of_packet) = Some iph →
  nat_internal_net config (ip_dst iph) = true →
  local_match (data of_packet) iph = Some m →
  handle_packet_in config of_packet s =
    (Normal tt,
     emit [OFPFlowMod (datapath of_packet) m
             [OFPActionOutput
                (switch_out_port (learned of_packet s) (eth_dst (eth (data of_packet))))];
           OFPPacketOut (datapath of_packet) (in_port of_packet)
             [OFPActionOutput
                (switch_out_port (learned of_packet s) (eth_dst (eth (data of_packet))));
              OFPActionOutput
                (switch_out_port (learned of_packet s) (eth_dst (eth (data of_packet))))]
             (data of_packet)]
       (learned of_packet s)).
Proof.
  intros Hty Hdst Hip Hint Hm.
  rewrite handle_packet_in_learned by (rewrite Hty; done).
  unfold is_arp. rewrite Hty. rewrite bool_decide_false by done.
  rewrite decide_False by done. fold (learned of_packet s).
  by apply internal_to_internal_run with iph.
Qed.

(** What the next hop's queue holds for a frame that had to wait. *)
Definition waiting_entry (config : nat_config) (of_packet : PacketIn) (iph : ipv4)
    (tp : match_ports) (s : NatController) : entry :=
  (of_packet,
   Some (mkMatch ETH_TYPE_IP (ip_src iph) (ip_dst iph) (ip_proto iph) tp),
   Some (translation_actions config (learned of_packet s) (data of_packet) tp)).

(** A TCP or UDP frame for the external network, with the next hop
    unresolved: the controller it leaves. *)
Lemma outbound_unresolved_run
    (config : nat_config) (of_packet : PacketIn) (iph : ipv4) (tp : match_ports)
    (s : NatController) :
  ethertype (eth (data of_packet)) = 2048 →
  eth_dst (eth (data of_packet)) ≠ nat_external_mac config →
  get_ipv4 (data of_packet) = Some iph →
  nat_internal_net config (ip_dst iph) = false →
  transport_ports (data of_packet) iph = Some tp →
  arp_table s !! nat_gateway_ip config = None →
  handle_packet_in config of_packet s =
    (Normal tt,
     emit (match pending_arp s !! nat_gateway_ip config with
           | Some _ => []
           | None =>
               [OFPPacketOut (datapath of_packet) (in_port of_packet)
                  [OFPActionOutput OFPP_FLOOD]
                  (arp_request_frame config (nat_gateway_ip config))]
           end)
       (set_pending_arp
          <[nat_gateway_ip config :=
              default [] (pending_arp s !! nat_gateway_ip config)
              ++ [waiting_entry config of_packet iph tp s]]>
          (emit [OFPFlowMod (datapath of_packet)
                   (mkMatch ETH_TYPE_IP (ip_src iph) (ip_dst iph) (ip_proto iph) tp)
                   (translation_actions config (learned of_packet s)
                      (data of_packet) tp)]
             (allocated (ip_src iph, ports_src tp) (learned of_packet s))))).
Proof.
  intros Hty Hdst Hip Hext Hport Hgw.
  rewrite handle_packet_in_learned by (rewrite Hty; done).
  unfold is_arp. rewrite Hty. rewrite bool_decide_false by done.
  rewrite decide_False by done. fold (learned of_packet s).
  rewrite (internal_to_external_run config of_packet (data of_packet) iph tp) by done.
  unfold router_forward. unfold_monad. cbn [arp_table emit allocated learned
    set_sent set_nat_port set_nat_translation set_switch_table].
  rewrite Hgw. rewrite (bool_decide_false (is_Some None)) by (by intros [? ?]).
  cbn [negb].
  destruct (pending_arp s !! nat_gateway_ip config) as [q|] eqn:Hq.
  - rewrite (send_arp_request_queued _ _ _ _ _ q) by done.
    by rewrite emit_nil.
  - by rewrite send_arp_request_fresh by done.
Qed.

(** X6: a TCP or UDP frame for the external network that finds the next
    hop unresolved is not sent.  A translation is made for its source, the
    rule with the translation actions is installed, the frame joins the end
    of the next hop's queue together with its match and actions, and a
    broadcast ARP request for the next hop is sent if and only if the next
    hop had no queue. *)
Theorem outbound_waits_for_next_hop
    (config : nat_config) (of_packet : PacketIn) (iph : ipv4) (tp : match_ports)
    (s : NatController) :
  ethertype (eth (data of_packet)) = 2048 →
  eth_dst (eth (data of_packet)) ≠ nat_external_mac config →
  get_ipv4 (data of_packet) = Some iph →
  nat_internal_net config (ip_dst iph) = false →
  transport_ports (data of_packet) iph = Some tp →
  arp_table s !! nat_gateway_ip config = None →
  ∃ s' : NatController,
    handle_packet_in config of_packet s = (Normal tt, s') ∧
    nat_lookup s' (nat_port s) = Some (ip_src iph, ports_src tp) ∧
    nat_port s' = nat_port s + 1 ∧
    pending_arp s' !! nat_gateway_ip config =
      Some (default [] (pending_arp s !! nat_gateway_ip config)
            ++ [waiting_entry config of_packet iph tp s]) ∧
    sent s' =
      sent s
      ++ OFPFlowMod (datapath of_packet)
           (mkMatch ETH_TYPE_IP (ip_src iph) (ip_dst iph) (ip_proto iph) tp)
           (translation_actions config (learned of_packet s) (data of_packet) tp)
         :: match pending_arp s !! nat_gateway_ip config with
            | Some _ => []
            | None =>
                [OFPPacketOut (datapath of_packet) (in_port of_packet)
                   [OFPActionOutput OFPP_FLOOD]
                   (arp_request_frame config (nat_gateway_ip config))]
            end.
Proof.
  intros Hty Hdst Hip Hext Hport Hgw. eexists.
  split; [by apply outbound_unresolved_run|].
  unfold nat_lookup. simpl. rewrite !lookup_insert_eq.
  repeat split; try done.
  destruct (pending_arp s !! nat_gateway_ip config); simpl.
  - by rewrite app_nil_r.
  - by rewrite <- app_assoc.
Qed.

(** ** The translation table over time *)

(** From [s] to [s'] the table has only grown: the counter has not gone
    back, the ports between the old and the new counter are bound, and every
    other port is bound as it was. *)
Definition translations_extend (s s' : NatController) : Prop :=
  nat_port s ≤ nat_port s' ∧
  (∀ p, p < nat_port s ∨ nat_port s' ≤ p → nat_lookup s' p = nat_lookup s p) ∧
  (∀ p, nat_port s ≤ p < nat_port s' → is_Some (nat_lookup s' p)).

Lemma translations_extend_same (s s' : NatController) :
  nat_translation s' = nat_translation s → nat_port s' = nat_port s →
  translations_extend s s'.
Proof.
  intros Htr Hport. unfold translations_extend, nat_lookup. rewrite Htr, Hport.
  split; [lia|]. split; [done|]. intros p Hp. lia.
Qed.

Lemma translations_extend_trans (s1 s2 s3 : NatController) :
  translations_extend s1 s2 → translations_extend s2 s3 → translations_extend s1 s3.
Proof.
  intros (Hle1 & Hout1 & Hin1) (Hle2 & Hout2 & Hin2). split; [lia|]. split.
  - intros p Hp. rewrite Hout2 by lia. apply Hout1. lia.
  - intros p Hp. destruct (decide (p < nat_port s2)).
    + rewrite Hout2 by lia. apply Hin1. lia.
    + apply Hin2. lia.
Qed.

Lemma translations_extend_allocated (internal : ip * Z) (s : NatController) :
  translations_extend s (allocated internal s).
Proof.
  unfold translations_extend, nat_lookup, allocated. simpl. split; [lia|]. split.
  - intros p Hp. apply lookup_insert_ne. intros Heq%str_inj. lia.
  - intros p Hp. replace p with (nat_port s) by lia. by rewrite lookup_insert_eq.
Qed.

(** A computation that only extends the table. *)
Definition extends_translations {A} (c : M A) : Prop :=
  ∀ s, translations_extend s (c s).2.

Lemma extends_of_keeps {A} (c : M A) : keeps_translations c → extends_translations c.
Proof. intros Hc s. destruct (Hc s). by apply translations_extend_same. Qed.

Lemma extends_bind {A B} (c : M A) (k : A → M B) :
  extends_translations c → (∀ a, extends_translations (k a)) →
  extends_translations (c ≫= k).
Proof.
  intros Hc Hk s. unfold mbind, M_bind. specialize (Hc s).
  destruct (c s) as [[a|e] s1]; simpl in *; [|done].
  eapply translations_extend_trans; [exact Hc|apply Hk].
Qed.

Lemma extends_add_nat_entry (internal : ip * Z) :
  extends_translations (add_nat_entry internal).
Proof. intros s. rewrite add_nat_entry_run. apply translations_extend_allocated. Qed.

Ltac extends_step :=
  match goal with
  | |- extends_translations (add_nat_entry _) => apply extends_add_nat_entry
  | |- extends_translations (_ ≫= _) => apply extends_bind; [|intros ?]
  | |- extends_translations (if ?b then _ else _) => destruct b
  | |- extends_translations (match ?x with _ => _ end) => destruct x
  | |- extends_translations _ => apply extends_of_keeps; solve [eauto with keeps]
  end.

Lemma extends_handle_incoming_internal_msg config of_packet data_packet :
  extends_translations (handle_incoming_internal_msg config of_packet data_packet).
Proof. unfold handle_incoming_internal_msg. repeat extends_step. Qed.

Lemma extends_handle_packet_in config of_packet :
  extends_translations (handle_packet_in config of_packet).
Proof.
  unfold handle_packet_in, switch_learn. repeat extends_step.
  - apply extends_of_keeps, keeps_modify. by intros ?.
  - apply extends_of_keeps, keeps_handle_incoming_arp.
  - apply extends_of_keeps, keeps_handle_incoming_external_msg.
  - apply extends_handle_incoming_internal_msg.
Qed.

(** The controller after a list of packet-in events, handled one after the
    other.  A handler that ends with an exception leaves the controller as
    it was when the exception was raised, and that is the controller the
    next event finds. *)
Fixpoint after_events (config : nat_config) (events : list PacketIn)
    (s : NatController) : NatController :=
  match events with
  | [] => s
  | ev :: events => after_events config events (handle_packet_in config ev s).2
  end.

Lemma after_events_extends config (events : list PacketIn) :
  ∀ s, translations_extend s (after_events config events s).
Proof.
  induction events as [|ev events IH]; intros s; simpl.
  - by apply translations_extend_same.
  - eapply translations_extend_trans; [apply extends_handle_packet_in|apply IH].
Qed.

(** X7: whatever packet-ins arrive, and however their handlers end, the
    translation counter never goes back and a port below it is bound
    afterwards to what it was bound to before: a translation is never
    removed, and never changed. *)
Theorem translations_are_permanent
    (config : nat_config) (events : list PacketIn) (s : NatController) :
  nat_port s ≤ nat_port (after_events config events s) ∧
  ∀ p, p < nat_port s →
       nat_lookup (after_events config events s) p = nat_lookup s p.
Proof.
  destruct (after_events_extends config events s) as (Hle & Hout & _).
  split; [done|]. intros p Hp. apply Hout. lia.
Qed.

(** X8: in every state a controller started fresh can be in, the
    translation table binds exactly the external ports from 3000 up to, and
    without, the counter. *)
Theorem translations_are_exactly_the_ports_handed_out
    (config : nat_config) (events : list PacketIn) (p : Z) :
  is_Some (nat_lookup (after_events config events init) p)
  ↔ 3000 ≤ p < nat_port (after_events config events init).
Proof.
  destruct (after_events_extends config events init) as (Hle & Hout & Hin).
  change (nat_port init) with 3000 in *. split.
  - intros Hsome. destruct (decide (3000 ≤ p < nat_port (after_events config events init)))
      as [|Hn]; [done|].
    rewrite Hout in Hsome by lia. unfold nat_lookup in Hsome. simpl in Hsome.
    rewrite lookup_empty in Hsome. by destruct Hsome.
  - apply Hin.
Qed.

(** ** Out and back *)

(** What handling a TCP or UDP frame for the external network does to the
    tables, whether or not the next hop is resolved. *)
Lemma outbound_tables
    (config : nat_config) (of_packet : PacketIn) (iph : ipv4) (tp : match_ports)
    (s : NatController) :
  ethertype (eth (data of_packet)) = 2048 →
  eth_dst (eth (data of_packet)) ≠ nat_external_mac config →
  get_ipv4 (data of_packet) = Some iph →
  nat_internal_net config (ip_dst iph) = false →
  transport_ports (data of_packet) iph = Some tp →
  nat_translation (handle_packet_in config of_packet s).2
    = <[str (nat_port s) := (ip_src iph, ports_src tp)]> (nat_translation s) ∧
  nat_port (handle_packet_in config of_packet s).2 = nat_port s + 1 ∧
  arp_table (handle_packet_in config of_packet s).2 = arp_table s ∧
  switch_table (handle_packet_in config of_packet s).2
    = <[eth_src (eth (data of_packet)) := in_port of_packet]> (switch_table s).
Proof.
  intros Hty Hdst Hip Hext Hport.
  rewrite handle_packet_in_learned by (rewrite Hty; done).
  unfold is_arp. rewrite Hty. rewrite bool_decide_false by done.
  rewrite decide_False by done.
  rewrite (internal_to_external_run config of_packet (data of_packet) iph tp) by done.
  match goal with |- context [router_forward ?c ?o ?d ?n ?m ?e ?st] =>
    destruct (keeps_router_forward c o d n m e st) as [-> ->];
    rewrite (preserves_router_forward arp_table) by done;
    rewrite (preserves_router_forward switch_table) by done
  end.
  done.
Qed.

(** X9: the translation table does not look for an existing binding.  A
    TCP or UDP frame for the external network handled twice gets two
    external ports, the counter's value and the next, both bound to the same
    source address and port. *)
Theorem same_flow_is_translated_anew
    (config : nat_config) (of_packet : PacketIn) (iph : ipv4) (tp : match_ports)
    (s : NatController) :
  ethertype (eth (data of_packet)) = 2048 →
  eth_dst (eth (data of_packet)) ≠ nat_external_mac config →
  get_ipv4 (data of_packet) = Some iph →
  nat_internal_net config (ip_dst iph) = false →
  transport_ports (data of_packet) iph = Some tp →
  nat_port (after_events config [of_packet; of_packet] s) = nat_port s + 2 ∧
  nat_lookup (after_events config [of_packet; of_packet] s) (nat_port s)
    = Some (ip_src iph, ports_src tp) ∧
  nat_lookup (after_events config [of_packet; of_packet] s) (nat_port s + 1)
    = Some (ip_src iph, ports_src tp).
Proof.
  intros Hty Hdst Hip Hext Hport. cbn [after_events].
  destruct (outbound_tables config of_packet iph tp s) as (Htr1 & Hp1 & _); try done.
  destruct (outbound_tables config of_packet iph tp (handle_packet_in config of_packet s).2)
    as (Htr2 & Hp2 & _); try done.
  unfold nat_lookup. rewrite Hp2, Htr2, Hp1, Htr1. split; [lia|]. split.
  - rewrite lookup_insert_ne by (intros Heq%str_inj; lia). apply lookup_insert_eq.
  - apply lookup_insert_eq.
Qed.

(** X10: out and back.  After a TCP or UDP frame from an internal host
    for the external network has been handled, a TCP or UDP frame for the
    gateway's external side whose destination port is the external port that
    frame was given is rewritten to the host's address and source port and
    sent to the host's link address on the port the host's frame came in by,
    provided the host's network address was resolved to the link address its
    frame came from. *)
Theorem answer_reaches_the_translated_host
    (config : nat_config) (out back : PacketIn) (oi bi : ipv4) (otp btp : match_ports)
    (s : NatController) :
  ethertype (eth (data out)) = 2048 →
  eth_dst (eth (data out)) ≠ nat_external_mac config →
  get_ipv4 (data out) = Some oi →
  nat_internal_net config (ip_dst oi) = false →
  transport_ports (data out) oi = Some otp →
  ethertype (eth (data back)) = 2048 →
  eth_dst (eth (data back)) = nat_external_mac config →
  get_ipv4 (data back) = Some bi →
  transport_ports (data back) bi = Some btp →
  ports_dst btp = nat_port s →
  nat_port s ≠ 0 →
  arp_table s !! ip_src oi = Some (eth_src (eth (data out))) →
  eth_src (eth (data back)) ≠ eth_src (eth (data out)) →
  ∃ (s' : NatController) (also : Z),
    handle_packet_in config back (handle_packet_in config out s).2 = (Normal tt, s') ∧
    new_since (handle_packet_in config out s).2 s' =
      [OFPFlowMod (datapath back)
         (mkMatch ETH_TYPE_IP (ip_src bi) (ip_dst bi) (ip_proto bi) btp)
         [OFPActionSetField (F_ipv4_dst (ip_src oi));
          OFPActionSetField (dst_port_field btp (ports_src otp));
          OFPActionSetField (F_eth_src (nat_internal_mac config));
          OFPActionSetField (F_eth_dst (eth_src (eth (data out))));
          OFPActionOutput (in_port out)];
       OFPPacketOut (datapath back) (in_port back)
         [OFPActionSetField (F_ipv4_dst (ip_src oi));
          OFPActionSetField (dst_port_field btp (ports_src otp));
          OFPActionSetField (F_eth_src (nat_internal_mac config));
          OFPActionSetField (F_eth_dst (eth_src (eth (data out))));
          OFPActionOutput (in_port out);
          OFPActionOutput also]
         (data back)].
Proof.
  intros Hoty Hodst Hoip Hoext Hoport Hbty Hbdst Hbip Hbport Hhit Hnz Hres Hsrc.
  destruct (outbound_tables config out oi otp s) as (Htr & Hp & Harp & Hsw); try done.
  set (s1 := (handle_packet_in config out s).2) in *.
  rewrite handle_packet_in_learned by (rewrite Hbty; done).
  unfold is_arp. rewrite Hbty. rewrite bool_decide_false by done.
  rewrite decide_True by done. fold (learned back s1).
  eexists _, _. split.
  - apply (external_hit_run config back (data back) bi btp (ip_src oi, ports_src otp)
             (eth_src (eth (data out))) (in_port out) (learned back s1)); try done.
    + by rewrite Hhit.
    + rewrite Hhit. unfold nat_lookup. simpl. rewrite Htr. apply lookup_insert_eq.
    + simpl. by rewrite Harp.
    + simpl. rewrite lookup_insert_ne by done. rewrite Hsw. apply lookup_insert_eq.
  - unfold new_since. simpl. by rewrite drop_app_length.
Qed.

(** X11: an answer that had to wait for the internal host is sent without
    its translation.  When a TCP or UDP frame for a translated external port
    finds the internal host unresolved (and nothing queued for it), the
    handler queues the bare frame before it ends with the [KeyError]; the
    ARP frame that resolves the host then replays it with the next-hop
    rewrite only: the destination address and port are not rewritten, and no
    rule is installed for the flow. *)
Theorem queued_answer_is_replayed_untranslated
    (config : nat_config) (back ev : PacketIn) (bi : ipv4) (btp : match_ports)
    (internal : ip * Z) (a : arp) (hs : list header) (s : NatController) :
  ethertype (eth (data back)) = 2048 →
  eth_dst (eth (data back)) = nat_external_mac config →
  get_ipv4 (data back) = Some bi →
  transport_ports (data back) bi = Some btp →
  ports_dst btp ≠ 0 →
  nat_lookup s (ports_dst btp) = Some internal →
  arp_table s !! internal.1 = None →
  pending_arp s !! internal.1 = None →
  ethertype (eth (data ev)) = 2054 →
  upper (data ev) = HArp a :: hs →
  src_ip a = internal.1 →
  (handle_packet_in config back s).1 = Raised (KeyError internal.1) ∧
  ∃ (s' : NatController) (port : Z) (rest : list Msg),
    handle_packet_in config ev (handle_packet_in config back s).2 = (Normal tt, s') ∧
    new_since (handle_packet_in config back s).2 s' =
      OFPPacketOut (datapath back) (in_port back)
        [OFPActionDecNwTtl;
         OFPActionSetField (F_eth_src (next_hop_src config internal.1));
         OFPActionSetField (F_eth_dst (src_mac a));
         OFPActionOutput port]
        (data back)
      :: rest ∧
    Forall (λ m, ∀ dp mtch acts, m ≠ OFPFlowMod dp mtch acts) rest.
Proof.
  intros Hbty Hbdst Hbip Hbport Hnz Hhit Hunres Hidle Hety Hup Hsrc.
  assert (Hdst_port : transport_dst_port (data back) bi = Some (ports_dst btp)).
  { unfold transport_dst_port, transport_ports in *.
    destruct (decide (ip_proto bi = IPPROTO_TCP)).
    - destruct (get_tcp (data back)); [|done]. by injection Hbport as <-.
    - destruct (decide (ip_proto bi = IPPROTO_UDP)); [|done].
      destruct (get_udp (data back)); [|done]. by injection Hbport as <-. }
  destruct (external_hit_unresolved_raises config back (data back) bi (ports_dst btp)
              internal (learned back s)) as (s1 & Hrun & Hpend); try done.
  assert (Hstep : handle_packet_in config back s = (Raised (KeyError internal.1), s1)).
  { rewrite handle_packet_in_learned by (rewrite Hbty; done).
    unfold is_arp. rewrite Hbty. rewrite bool_decide_false by done.
    rewrite decide_True by done. exact Hrun. }
  rewrite Hstep. split; [done|]. cbn [snd].
  simpl in Hpend. rewrite Hidle in Hpend. cbn [default from_option id app] in Hpend.
  rewrite handle_packet_in_learned by (rewrite Hety; done).
  unfold is_arp. rewrite Hety. rewrite bool_decide_true by done.
  fold (learned ev s1).
  rewrite (handle_incoming_arp_run config ev (data ev) a hs (learned ev s1)) by done.
  cbn [pending_arp learned set_switch_table]. rewrite Hsrc, Hpend.
  eexists _, _, _. split; [reflexivity|]. split.
  - unfold new_since. simpl. rewrite drop_app_length. reflexivity.
  - unfold arp_tail. cbn [rebound foldl fst].
    destruct (decide (opcode a = 1)).
    + destruct (decide (dst_ip a = nat_internal_ip config)).
      { repeat constructor; intros; discriminate. }
      destruct (decide (dst_ip a = nat_external_ip config));
        repeat constructor; intros; discriminate.
    + repeat constructor; intros; discriminate.
Qed.

(** ** A burst of frames behind one request *)

(** A TCP or UDP frame from the internal side for the external network. *)
Definition outbound (config : nat_config) (of_packet : PacketIn) : Prop :=
  ethertype (eth (data of_packet)) = 2048 ∧
  eth_dst (eth (data of_packet)) ≠ nat_external_mac config ∧
  ∃ iph tp,
    get_ipv4 (data of_packet) = Some iph ∧
    nat_internal_net config (ip_dst iph) = false ∧
    transport_ports (data of_packet) iph = Some tp.

Lemma outbound_burst_run (config : nat_config) (events : list PacketIn) :
  ∀ s : NatController,
    Forall (outbound config) events →
    arp_table s !! nat_gateway_ip config = None →
    ∃ new : list Msg,
      sent (after_events config events s) = sent s ++ new ∧
      omap payload_of new =
        match pending_arp s !! nat_gateway_ip config, events with
        | None, _ :: _ => [arp_request_frame config (nat_gateway_ip config)]
        | _, _ => []
        end ∧
      map (λ e : entry, e.1.1)
          (default [] (pending_arp (after_events config events s) !! nat_gateway_ip config))
        = map (λ e : entry, e.1.1) (default [] (pending_arp s !! nat_gateway_ip config))
          ++ events ∧
      nat_port (after_events config events s) = nat_port s + Z.of_nat (length events) ∧
      arp_table (after_events config events s) !! nat_gateway_ip config = None.
Proof.
  induction events as [|ev events IH]; intros s Hall Hgw.
  - exists []. simpl. rewrite !app_nil_r. repeat split; try done; try lia.
    by destruct (pending_arp s !! nat_gateway_ip config).
  - apply Forall_cons in Hall as [(Hty & Hdst & iph & tp & Hip & Hext & Hport) Hall].
    cbn [after_events].
    rewrite (outbound_unresolved_run config ev iph tp s) by done. cbn [snd].
    match goal with |- context [after_events config events ?s1] =>
      destruct (IH s1 Hall) as (new & Hsent & Hframes & Hqueue & Hcount & Hres);
        [exact Hgw|]; set (s1' := s1) in *
    end.
    eexists. split; [rewrite Hsent; simpl; rewrite <- !app_assoc; reflexivity|].
    split; [|split; [|split; [|exact Hres]]].
    + rewrite !omap_app, Hframes. simpl. rewrite lookup_insert_eq.
      by destruct (pending_arp s !! nat_gateway_ip config).
    + rewrite Hqueue. simpl. rewrite lookup_insert_eq. cbn [default from_option id].
      rewrite map_app. simpl. by rewrite <- app_assoc.
    + rewrite Hcount. simpl. lia.
Qed.

(** X12: frames for the external network that arrive while the next hop
    is unresolved pile up behind one request.  After any number of them the
    next hop's queue holds them all, in the order they arrived, after what
    it held; each has been given an external port; and the only frame the
    controller has sent is one broadcast ARP request for the next hop, or
    none if the next hop already had a queue. *)
Theorem outbound_burst_queues_behind_one_request
    (config : nat_config) (events : list PacketIn) (s : NatController) :
  Forall (outbound config) events →
  arp_table s !! nat_gateway_ip config = None →
  map (λ e : entry, e.1.1)
      (default [] (pending_arp (after_events config events s) !! nat_gateway_ip config))
    = map (λ e : entry, e.1.1) (default [] (pending_arp s !! nat_gateway_ip config))
      ++ events ∧
  nat_port (after_events config events s) = nat_port s + Z.of_nat (length events) ∧
  omap payload_of (new_since s (after_events config events s)) =
    match pending_arp s !! nat_gateway_ip config, events with
    | None, _ :: _ => [arp_request_frame config (nat_gateway_ip config)]
    | _, _ => []
    end.
Proof.
  intros Hall Hgw.
  destruct (outbound_burst_run config events s Hall Hgw)
    as (new & Hsent & Hframes & Hqueue & Hcount & _).
  split; [done|]. split; [done|].
  unfold new_since. rewrite Hsent, drop_app_length. done.
Qed.

(** ** Transports the controller does not handle *)

(** X13: an IPv4 frame for the gateway's external side that is neither TCP
    nor UDP (an ICMP echo reply, say) is learned from and dropped: nothing is
    sent and no other table changes. *)
Theorem inbound_other_transport_dropped
    (config : nat_config) (of_packet : PacketIn) (iph : ipv4) (s : NatController) :
  ethertype (eth (data of_packet)) = 2048 →
  eth_dst (eth (data of_packet)) = nat_external_mac config →
  get_ipv4 (data of_packet) = Some iph →
  ip_proto iph ≠ IPPROTO_TCP →
  ip_proto iph ≠ IPPROTO_UDP →
  handle_packet_in config of_packet s = (Normal tt, learned of_packet s).
Proof.
  intros Hty Hdst Hip Htcp Hudp.
  rewrite handle_packet_in_learned by (rewrite Hty; done).
  unfold is_arp. rewrite Hty. rewrite bool_decide_false by done.
  rewrite decide_True by done.
  by apply external_unsupported_transport_dropped with iph.
Qed.

(** X14: an IPv4 frame from the internal side whose transport the branch
    it takes does not name (anything but TCP and UDP for an external
    destination, anything but ICMP, TCP and UDP for an internal one) ends the
    handler with [match] unbound.  The frame has been learned from; nothing
    has been sent, translated or queued. *)
Theorem internal_other_transport_raises
    (config : nat_config) (of_packet : PacketIn) (iph : ipv4) (s : NatController) :
  ethertype (eth (data of_packet)) = 2048 →
  eth_dst (eth (data of_packet)) ≠ nat_external_mac config →
  get_ipv4 (data of_packet) = Some iph →
  ip_proto iph ≠ IPPROTO_TCP →
  ip_proto iph ≠ IPPROTO_UDP →
  (nat_internal_net config (ip_dst iph) = true → ip_proto iph ≠ IPPROTO_ICMP) →
  handle_packet_in config of_packet s =
    (Raised (UnboundLocalError "match"), learned of_packet s).
Proof.
  intros Hty Hdst Hip Htcp Hudp Hicmp.
  rewrite handle_packet_in_learned by (rewrite Hty; done).
  unfold is_arp. rewrite Hty. rewrite bool_decide_false by done.
  rewrite decide_False by done.
  by apply internal_unsupported_transport_raises with iph.
Qed.

(** ** More of the small network *)

Module Home.

(** Host A (10.0.0.2, switch port 1) asks who has the gateway's internal
    address. *)
Definition arp_from_a : PacketIn :=
  {| datapath := 1; in_port := 1;
     data := {| eth := {| eth_dst := "ff:ff:ff:ff:ff:ff"; eth_src := "00:00:00:00:00:0a";
                          ethertype := 2054 |};
                upper := [HArp {| hwtype := 1; proto := 2048; hlen := 6; plen := 4;
                                  opcode := 1;
                                  src_mac := "00:00:00:00:00:0a";
                                  src_ip := "10.0.0.2";
                                  dst_mac := "00:00:00:00:00:00";
                                  dst_ip := "10.0.0.1" |}] |} |}.

(** The controller once it has heard host A's request. *)
Definition knows_a : NatController :=
  (handle_packet_in Scenario.cfg arp_from_a init).2.

(** ... and has then seen host A open its connection. *)
Definition open_a : NatController :=
  (handle_packet_in Scenario.cfg Scenario.tcp_out knows_a).2.

(** Host A pings host B, 10.0.0.3. *)
Definition icmp_local : PacketIn :=
  {| datapath := 1; in_port := 1;
     data := {| eth := {| eth_dst := "00:00:00:00:00:0b"; eth_src := "00:00:00:00:00:0a";
                          ethertype := 2048 |};
                upper := [HIpv4 {| ip_src := "10.0.0.2"; ip_dst := "10.0.0.3";
                                   ip_proto := 1 |}] |} |}.

(** An LLDP frame (ethertype 0x88cc) from the switch port of host A. *)
Definition lldp : PacketIn :=
  {| datapath := 1; in_port := 1;
     data := {| eth := {| eth_dst := "01:80:c2:00:00:0e"; eth_src := "00:00:00:00:00:0a";
                          ethertype := 35020 |};
                upper := [] |} |}.

Definition tcp_out_ip : ipv4 :=
  {| ip_src := "10.0.0.2"; ip_dst := "198.51.100.7"; ip_proto := 6 |}.
Definition tcp_in_ip : ipv4 :=
  {| ip_src := "198.51.100.7"; ip_dst := "203.0.113.1"; ip_proto := 6 |}.

End Home.

(** X2 on the small network: the LLDP frame. *)
Lemma other_ethertype_learned_and_dropped_witness :
  (handle_packet_in Scenario.cfg Home.lldp init).1 = Normal tt ∧
  sent (handle_packet_in Scenario.cfg Home.lldp init).2 = [].
Proof.
  rewrite (other_ethertype_learned_and_dropped Scenario.cfg Home.lldp init);
    [split; reflexivity | by vm_compute ..].
Defined.

(** X4 on the small network: the answer for port 3000, with host A
    resolved and learned. *)
Lemma inbound_hit_rewritten_and_forwarded_witness :
  (handle_packet_in Scenario.cfg Scenario.tcp_in Home.open_a).1 = Normal tt.
Proof.
  rewrite (inbound_hit_rewritten_and_forwarded Scenario.cfg Scenario.tcp_in
             Home.tcp_in_ip (TcpPorts 80 3000) ("10.0.0.2", 40000)
             "00:00:00:00:00:0a" 1 Home.open_a);
    [reflexivity | by vm_compute ..].
Defined.

(** X5 on the small network: host A's ping to host B. *)
Lemma internal_to_internal_forwarded_witness :
  (handle_packet_in Scenario.cfg Home.icmp_local init).1 = Normal tt.
Proof.
  rewrite (internal_to_internal_forwarded Scenario.cfg Home.icmp_local
             {| ip_src := "10.0.0.2"; ip_dst := "10.0.0.3"; ip_proto := 1 |}
             (mkMatch 2048 "10.0.0.2" "10.0.0.3" 1 NoPorts) init);
    [reflexivity | by vm_compute ..].
Defined.

(** X6 on the small network: host A's first frame reaches a fresh
    controller. *)
Lemma outbound_waits_for_next_hop_witness :
  ∃ s' : NatController,
    handle_packet_in Scenario.cfg Scenario.tcp_out init = (Normal tt, s') ∧
    nat_lookup s' 3000 = Some ("10.0.0.2", 40000).
Proof.
  destruct (outbound_waits_for_next_hop Scenario.cfg Scenario.tcp_out
              Home.tcp_out_ip (TcpPorts 40000 80) init)
    as (s' & Hrun & Hhit & _); [by vm_compute ..|].
  exists s'. split; [exact Hrun|exact Hhit].
Defined.

(** X9 on the small network: host A's first frame, twice. *)
Lemma same_flow_is_translated_anew_witness :
  nat_lookup (after_events Scenario.cfg [Scenario.tcp_out; Scenario.tcp_out] init) 3000
    = Some ("10.0.0.2", 40000) ∧
  nat_lookup (after_events Scenario.cfg [Scenario.tcp_out; Scenario.tcp_out] init) 3001
    = Some ("10.0.0.2", 40000).
Proof.
  destruct (same_flow_is_translated_anew Scenario.cfg Scenario.tcp_out
              Home.tcp_out_ip (TcpPorts 40000 80) init)
    as (_ & H0 & H1); [by vm_compute ..|].
  split; [exact H0|exact H1].
Defined.

(** X10 on the small network: host A's connection and its answer. *)
Lemma answer_reaches_the_translated_host_witness :
  ∃ s' : NatController,
    handle_packet_in Scenario.cfg Scenario.tcp_in
      (handle_packet_in Scenario.cfg Scenario.tcp_out Home.knows_a).2 = (Normal tt, s').
Proof.
  destruct (answer_reaches_the_translated_host Scenario.cfg Scenario.tcp_out
              Scenario.tcp_in Home.tcp_out_ip Home.tcp_in_ip
              (TcpPorts 40000 80) (TcpPorts 80 3000) Home.knows_a)
    as (s' & also & Hrun & _); [by vm_compute ..|].
  exists s'. exact Hrun.
Defined.

(** X11 on the small network: the answer arrives before host A is
    resolved, then host A's ARP request comes. *)
Lemma queued_answer_is_replayed_untranslated_witness :
  (handle_packet_in Scenario.cfg Scenario.tcp_in Scenario.waiting).1
    = Raised (KeyError "10.0.0.2").
Proof.
  destruct (queued_answer_is_replayed_untranslated Scenario.cfg Scenario.tcp_in
              Home.arp_from_a Home.tcp_in_ip (TcpPorts 80 3000) ("10.0.0.2", 40000)
              {| hwtype := 1; proto := 2048; hlen := 6; plen := 4; opcode := 1;
                 src_mac := "00:00:00:00:00:0a"; src_ip := "10.0.0.2";
                 dst_mac := "00:00:00:00:00:00"; dst_ip := "10.0.0.1" |}
              [] Scenario.waiting)
    as (Hraise & _); [by vm_compute ..|].
  exact Hraise.
Defined.

(** X12 on the small network: host A's two connections reach a fresh
    controller one after the other. *)
Lemma outbound_burst_queues_behind_one_request_witness :
  nat_port (after_events Scenario.cfg [Scenario.tcp_out; Scenario.tcp_out2] init) = 3002.
Proof.
  destruct (outbound_burst_queues_behind_one_request Scenario.cfg
              [Scenario.tcp_out; Scenario.tcp_out2] init)
    as (_ & Hport & _).
  - repeat constructor; try (by vm_compute).
    + exists Home.tcp_out_ip, (TcpPorts 40000 80). by vm_compute.
    + exists Home.tcp_out_ip, (TcpPorts 40001 80). by vm_compute.
  - by vm_compute.
  - exact Hport.
Defined.

(** X13 on the small network: a GRE packet for the external side. *)
Lemma inbound_other_transport_dropped_witness :
  (handle_packet_in Scenario.cfg Scenario.gre_in init).1 = Normal tt.
Proof.
  rewrite (inbound_other_transport_dropped Scenario.cfg Scenario.gre_in
             {| ip_src := "198.51.100.7"; ip_dst := "203.0.113.1"; ip_proto := 47 |} init);
    [reflexivity | by vm_compute ..].
Defined.

(** X14 on the small network: host A's ping to an external address. *)
Lemma internal_other_transport_raises_witness :
  (handle_packet_in Scenario.cfg Scenario.icmp_out init).1
    = Raised (UnboundLocalError "match").
Proof.
  rewrite (internal_other_transport_raises Scenario.cfg Scenario.icmp_out
             {| ip_src := "10.0.0.2"; ip_dst := "198.51.100.7"; ip_proto := 1 |} init);
    [reflexivity | by vm_compute ..].
Defined.

(** ** Nothing waits for a resolved address *)

(** From [s] to [s'] the resolution table is as it was, and so is the queue
    of every address it resolves. *)
Definition queues_only_unresolved (s s' : NatController) : Prop :=
  arp_table s' = arp_table s ∧
  ∀ x, is_Some (arp_table s !! x) → pending_arp s' !! x = pending_arp s !! x.

Lemma queues_only_unresolved_same (s s' : NatController) :
  arp_table s' = arp_table s → pending_arp s' = pending_arp s →
  queues_only_unresolved s s'.
Proof. intros Harp Hpend. split; [done|]. intros x _. by rewrite Hpend. Qed.

Lemma queues_only_unresolved_trans (s1 s2 s3 : NatController) :
  queues_only_unresolved s1 s2 → queues_only_unresolved s2 s3 →
  queues_only_unresolved s1 s3.
Proof.
  intros [Harp1 Hq1] [Harp2 Hq2]. split; [congruence|].
  intros x Hx. rewrite Hq2 by (by rewrite Harp1). by apply Hq1.
Qed.

Definition waits_only_for_unresolved {A} (c : M A) : Prop :=
  ∀ s, queues_only_unresolved s (c s).2.

Lemma waits_of_preserves {A} (c : M A) :
  preserves arp_table c → preserves pending_arp c → waits_only_for_unresolved c.
Proof. intros Harp Hpend s. by apply queues_only_unresolved_same. Qed.

Lemma waits_bind {A B} (c : M A) (k : A → M B) :
  waits_only_for_unresolved c → (∀ a, waits_only_for_unresolved (k a)) →
  waits_only_for_unresolved (c ≫= k).
Proof.
  intros Hc Hk s. unfold mbind, M_bind. specialize (Hc s).
  destruct (c s) as [[a|e] s1]; simpl in *; [|done].
  eapply queues_only_unresolved_trans; [exact Hc|apply Hk].
Qed.

(** A request for an unresolved address. *)
Lemma send_arp_request_unresolved config target of_packet mtch actions
    (s : NatController) :
  arp_table s !! target = None →
  queues_only_unresolved s (send_arp_request config target of_packet mtch actions s).2.
Proof.
  intros Hunres. destruct (pending_arp s !! target) as [q|] eqn:Hq.
  - rewrite (send_arp_request_queued _ _ _ _ _ q) by done. split; [done|].
    intros x [m Hx]. simpl. apply lookup_insert_ne. congruence.
  - rewrite send_arp_request_fresh by done. split; [done|].
    intros x [m Hx]. simpl. apply lookup_insert_ne. congruence.
Qed.

Lemma send_arp_request_normal config target of_packet mtch actions (s : NatController) :
  (send_arp_request config target of_packet mtch actions s).1 = Normal tt.
Proof.
  destruct (pending_arp s !! target) as [q|] eqn:Hq.
  - by rewrite (send_arp_request_queued _ _ _ _ _ q).
  - by rewrite send_arp_request_fresh.
Qed.

Lemma waits_router_forward config of_packet data_packet next_ip mtch extra :
  waits_only_for_unresolved
    (router_forward config of_packet data_packet next_ip mtch extra).
Proof.
  intros s. destruct (arp_table s !! next_ip) as [dst_mac|] eqn:Hk.
  - rewrite (router_forward_known _ _ _ _ dst_mac) by done.
    by apply queues_only_unresolved_same.
  - replace (router_forward config of_packet data_packet next_ip mtch extra s)
      with (send_arp_request config next_ip of_packet mtch extra s).
    + by apply send_arp_request_unresolved.
    + unfold router_forward. unfold_monad. rewrite Hk.
      by rewrite (bool_decide_false (is_Some None)) by (by intros [? ?]).
Qed.

(** Lines 303-306, followed by the rest of the handler. *)
Lemma waits_resolve_first {B} config target of_packet (rest : M B) :
  waits_only_for_unresolved rest →
  waits_only_for_unresolved
    (known ← dict_mem arp_table target;
     (if negb known then
        send_arp_request config target of_packet None None;; sleep
      else mret tt);;
     rest).
Proof.
  intros Hrest s. unfold dict_mem. unfold_monad.
  destruct (arp_table s !! target) as [m|] eqn:Hk.
  - rewrite bool_decide_true by done. cbn [negb]. apply Hrest.
  - rewrite (bool_decide_false (is_Some None)) by (by intros [? ?]). cbn [negb].
    pose proof (send_arp_request_unresolved config target of_packet None None s Hk) as Hq.
    pose proof (send_arp_request_normal config target of_packet None None s) as Hn.
    destruct (send_arp_request config target of_packet None None s) as [r s1].
    simpl in Hn, Hq. subst r. unfold sleep. unfold_monad.
    eapply queues_only_unresolved_trans; [exact Hq|apply Hrest].
Qed.

Ltac waits_leaf :=
  apply waits_of_preserves;
  first [ apply preserves_ret | apply preserves_raise | apply preserves_gets
        | apply preserves_dict_get | apply preserves_local | apply preserves_attr_of
        | apply preserves_add_flow; by intros
        | apply preserves_switch_forward; by intros
        | apply preserves_modify; by intros ].

Ltac waits_step :=
  match goal with
  | |- waits_only_for_unresolved (router_forward _ _ _ _ _ _) => apply waits_router_forward
  | |- waits_only_for_unresolved (dict_mem arp_table _ ≫= _) =>
      apply waits_resolve_first
  | |- waits_only_for_unresolved (_ ≫= _) => apply waits_bind; [|intros ?]
  | |- waits_only_for_unresolved (if ?b then _ else _) => destruct b
  | |- waits_only_for_unresolved (match ?x with _ => _ end) => destruct x
  | |- waits_only_for_unresolved _ => waits_leaf
  end.

Lemma waits_handle_incoming_external_msg config of_packet data_packet :
  waits_only_for_unresolved (handle_incoming_external_msg config of_packet data_packet).
Proof.
  unfold handle_incoming_external_msg. repeat waits_step.
  all: unfold dict_mem; repeat waits_step.
Qed.

Lemma waits_handle_incoming_internal_msg config of_packet data_packet :
  waits_only_for_unresolved (handle_incoming_internal_msg config of_packet data_packet).
Proof.
  unfold handle_incoming_internal_msg, add_nat_entry. repeat waits_step.
Qed.

(** No queue is held for an address the resolution table resolves. *)
Definition resolved_have_no_queue (s : NatController) : Prop :=
  ∀ x, is_Some (arp_table s !! x) → pending_arp s !! x = None.

Lemma resolved_have_no_queue_step (s s' : NatController) :
  queues_only_unresolved s s' → resolved_have_no_queue s → resolved_have_no_queue s'.
Proof.
  intros [Harp Hq] Hinv x Hx. rewrite Harp in Hx. rewrite Hq by done. by apply Hinv.
Qed.

Lemma resolved_have_no_queue_packet_in config of_packet (s : NatController) :
  resolved_have_no_queue s →
  resolved_have_no_queue (handle_packet_in config of_packet s).2.
Proof.
  intros Hinv.
  destruct (decide (ethertype (eth (data of_packet)) = 34525)) as [Hv6|Hv6].
  { unfold handle_packet_in, is_ipv6. by rewrite bool_decide_true by done. }
  rewrite handle_packet_in_learned by done.
  assert (Hlearned : resolved_have_no_queue
            (set_switch_table <[eth_src (eth (data of_packet)) := in_port of_packet]> s))
    by exact Hinv.
  destruct (is_arp (data of_packet)).
  - destruct (upper (data of_packet)) as [|[a| | |] hs] eqn:Hup;
      try (unfold handle_incoming_arp, arp_header; by rewrite Hup).
    rewrite (handle_incoming_arp_run _ _ _ a hs) by done.
    intros x Hx. simpl in *. destruct (decide (x = src_ip a)) as [->|Hne].
    + apply lookup_delete_eq.
    + rewrite lookup_delete_ne by done. rewrite lookup_insert_ne in Hx by done.
      by apply Hinv.
  - destruct (decide _).
    + eapply resolved_have_no_queue_step; [apply waits_handle_incoming_external_msg|done].
    + eapply resolved_have_no_queue_step; [apply waits_handle_incoming_internal_msg|done].
Qed.

(** X17: in every state a controller started fresh can be in, no frame
    waits for an address that is resolved: an address the resolution table
    holds has no pending queue. *)
Theorem nothing_waits_for_a_resolved_address
    (config : nat_config) (events : list PacketIn) (x : ip) :
  is_Some (arp_table (after_events config events init) !! x) →
  pending_arp (after_events config events init) !! x = None.
Proof.
  assert (Hinv : ∀ s, resolved_have_no_queue s →
                      resolved_have_no_queue (after_events config events s)).
  { induction events as [|ev events IH]; intros s Hs; [done|].
    simpl. apply IH. by apply resolved_have_no_queue_packet_in. }
  apply Hinv. intros y [m Hy]. simpl in Hy. by rewrite lookup_empty in Hy.
Qed.

(** X17 on the small network: once the next hop has answered, nothing
    waits for it. *)
Lemma nothing_waits_for_a_resolved_address_witness :
  pending_arp (after_events Scenario.cfg [Scenario.tcp_out; Scenario.gw_arp_reply] init)
    !! "203.0.113.254" = None.
Proof.
  apply (nothing_waits_for_a_resolved_address Scenario.cfg
           [Scenario.tcp_out; Scenario.gw_arp_reply] "203.0.113.254").
  exists "00:00:00:00:01:fe". by vm_compute.
Defined.

(** ** The burst, once the next hop answers *)

Lemma replayed_payloads config (s : NatController) (x : ip) (m : mac)
    (queue : list entry) :
  omap payload_of (concat (map (replayed config s x m) queue))
  = map (λ e : entry, data e.1.1) queue.
Proof.
  induction queue as [|[[ofp mtch] extra] queue IH]; [done|].
  cbn [map concat]. rewrite omap_app, IH.
  unfold replayed, forwarded. by destruct mtch.
Qed.

Lemma rebound_last (queue : list entry) (of_packet : PacketIn) :
  rebound queue of_packet = default of_packet (last (map (λ e : entry, e.1.1) queue)).
Proof.
  unfold rebound. induction queue as [|e queue IH] using rev_ind; [done|].
  rewrite foldl_app, map_app. simpl. by rewrite last_snoc.
Qed.

(** X18: frames for the external network that piled up behind the request
    for the next hop leave in the order they arrived when an ARP frame from
    the next hop that is not itself a request is handled: the frames the
    controller then sends are the waiting frames, first to last, followed by
    one more copy of the last of them (the forward of line 161, which after a
    replay no longer carries the ARP frame). *)
Theorem waiting_frames_leave_in_arrival_order
    (config : nat_config) (events : list PacketIn) (ev : PacketIn)
    (a : arp) (hs : list header) (s : NatController) :
  Forall (outbound config) events →
  arp_table s !! nat_gateway_ip config = None →
  pending_arp s !! nat_gateway_ip config = None →
  ethertype (eth (data ev)) = 2054 →
  upper (data ev) = HArp a :: hs →
  src_ip a = nat_gateway_ip config →
  opcode a ≠ 1 →
  ∃ s' : NatController,
    handle_packet_in config ev (after_events config events s) = (Normal tt, s') ∧
    omap payload_of (new_since (after_events config events s) s')
      = map data events ++ [data (default ev (last events))].
Proof.
  intros Hall Hgw Hidle Hety Hup Hsrc Hop.
  destruct (outbound_burst_run config events s Hall Hgw)
    as (new & _ & _ & Hqueue & _ & _).
  rewrite Hidle in Hqueue. cbn [default from_option id map app] in Hqueue.
  set (s1 := after_events config events s) in *.
  rewrite handle_packet_in_learned by (rewrite Hety; done).
  unfold is_arp. rewrite Hety. rewrite bool_decide_true by done.
  rewrite (handle_incoming_arp_run config ev (data ev) a hs) by done.
  eexists. split; [reflexivity|].
  unfold new_since. simpl. rewrite drop_app_length, omap_app, replayed_payloads.
  rewrite Hsrc. unfold arp_tail. rewrite decide_False by done. simpl.
  rewrite rebound_last, Hqueue. f_equal.
  rewrite <- Hqueue. by rewrite map_map.
Qed.

(** X18 on the small network: host A's two connections wait, then the next
    hop's reply comes. *)
Lemma waiting_frames_leave_in_arrival_order_witness :
  ∃ s' : NatController,
    handle_packet_in Scenario.cfg Scenario.gw_arp_reply
      (after_events Scenario.cfg [Scenario.tcp_out; Scenario.tcp_out2] init)
      = (Normal tt, s').
Proof.
  destruct (waiting_frames_leave_in_arrival_order Scenario.cfg
              [Scenario.tcp_out; Scenario.tcp_out2] Scenario.gw_arp_reply
              {| hwtype := 1; proto := 2048; hlen := 6; plen := 4; opcode := 2;
                 src_mac := "00:00:00:00:01:fe"; src_ip := "203.0.113.254";
                 dst_mac := "00:00:00:00:01:00"; dst_ip := "203.0.113.1" |}
              [] init)
    as (s' & Hrun & _); try (by vm_compute).
  - repeat constructor; try (by vm_compute).
    + exists Home.tcp_out_ip, (TcpPorts 40000 80). by vm_compute.
    + exists Home.tcp_out_ip, (TcpPorts 40001 80). by vm_compute.
  - exists s'. exact Hrun.
Defined.

(** ** ARP frames, as packet-ins *)

(** The packet-in on whose behalf lines 161-166 run: the one that carried
    the ARP frame when nothing waited for its sender, the one of the last
    waiting frame otherwise. *)
Definition arp_actor (of_packet : PacketIn) (a : arp) (s : NatController) : PacketIn :=
  default of_packet
    (last (map (λ e : entry, e.1.1) (default [] (pending_arp s !! src_ip a)))).

(** X15: handling an ARP frame always ends normally, and after the replays
    it sends one frame to the port learned for the ARP frame's destination
    link address, or to all ports.  That frame is the ARP frame itself when
    nothing waited for its sender; when frames waited it is the last of
    them, sent for the packet-in that had carried it. *)
Theorem arp_forward_carries_the_actor
    (config : nat_config) (of_packet : PacketIn) (a : arp) (hs : list header)
    (s : NatController) :
  ethertype (eth (data of_packet)) = 2054 →
  upper (data of_packet) = HArp a :: hs →
  ∃ (s' : NatController) (reply : list Msg),
    handle_packet_in config of_packet s = (Normal tt, s') ∧
    new_since s s' =
      concat (map (replayed config (learned of_packet s) (src_ip a) (src_mac a))
                  (default [] (pending_arp s !! src_ip a)))
      ++ OFPPacketOut (datapath (arp_actor of_packet a s))
           (in_port (arp_actor of_packet a s))
           [OFPActionOutput
              (switch_out_port (learned of_packet s) (eth_dst (eth (data of_packet))))]
           (data (arp_actor of_packet a s))
         :: reply ∧
    (opcode a ≠ 1 → reply = []) ∧
    (pending_arp s !! src_ip a = None → arp_actor of_packet a s = of_packet) ∧
    (∀ queue e, pending_arp s !! src_ip a = Some (queue ++ [e]) →
                arp_actor of_packet a s = e.1.1).
Proof.
  intros Hety Hup.
  rewrite handle_packet_in_learned by (rewrite Hety; done).
  unfold is_arp. rewrite Hety. rewrite bool_decide_true by done.
  rewrite (handle_incoming_arp_run config of_packet (data of_packet) a hs) by done.
  eexists _, _. split; [reflexivity|]. split.
  - unfold new_since. simpl. rewrite drop_app_length.
    unfold arp_tail. rewrite rebound_last. reflexivity.
  - split; [intros Hop; by rewrite decide_False by done|].
    unfold arp_actor. split.
    + by intros ->.
    + intros queue e ->. cbn [default from_option id]. rewrite map_app. simpl.
      by rewrite last_snoc.
Qed.

(** X15 on the small network: the next hop's reply, with host A's frame
    waiting for the next hop. *)
Lemma arp_forward_carries_the_actor_witness :
  (handle_packet_in Scenario.cfg Scenario.gw_arp_reply Scenario.waiting).1 = Normal tt.
Proof.
  destruct (arp_forward_carries_the_actor Scenario.cfg Scenario.gw_arp_reply
              {| hwtype := 1; proto := 2048; hlen := 6; plen := 4; opcode := 2;
                 src_mac := "00:00:00:00:01:fe"; src_ip := "203.0.113.254";
                 dst_mac := "00:00:00:00:01:00"; dst_ip := "203.0.113.1" |}
              [] Scenario.waiting eq_refl eq_refl)
    as (s' & reply & Hrun & _).
  by rewrite Hrun.
Defined.

(** X16: an ARP request is answered if and only if it asks for one of the
    gateway's two addresses.  The answer follows the replays and the
    forward; it is an ARP reply from the address asked for and the link
    address of its side, addressed to the requester, and it leaves by the
    ingress port of the packet-in lines 161-166 run for, which is the
    request's own only when nothing waited for the requester. *)
Theorem arp_request_answered_for_own_addresses_only
    (config : nat_config) (of_packet : PacketIn) (a : arp) (hs : list header)
    (s : NatController) :
  ethertype (eth (data of_packet)) = 2054 →
  upper (data of_packet) = HArp a :: hs →
  opcode a = 1 →
  ∃ (s' : NatController) (forward : Msg),
    handle_packet_in config of_packet s = (Normal tt, s') ∧
    new_since s s' =
      concat (map (replayed config (learned of_packet s) (src_ip a) (src_mac a))
                  (default [] (pending_arp s !! src_ip a)))
      ++ forward ::
      (if decide (dst_ip a = nat_internal_ip config) then
         [OFPPacketOut (datapath (arp_actor of_packet a s))
            (in_port (arp_actor of_packet a s)) [OFPActionOutput OFPP_IN_PORT]
            (arp_reply_frame a (nat_internal_ip config) (nat_internal_mac config))]
       else if decide (dst_ip a = nat_external_ip config) then
         [OFPPacketOut (datapath (arp_actor of_packet a s))
            (in_port (arp_actor of_packet a s)) [OFPActionOutput OFPP_IN_PORT]
            (arp_reply_frame a (nat_external_ip config) (nat_external_mac config))]
       else []).
Proof.
  intros Hety Hup Hop.
  rewrite handle_packet_in_learned by (rewrite Hety; done).
  unfold is_arp. rewrite Hety. rewrite bool_decide_true by done.
  rewrite (handle_incoming_arp_run config of_packet (data of_packet) a hs) by done.
  eexists _, _. split; [reflexivity|].
  unfold new_since. simpl. rewrite drop_app_length.
  unfold arp_tail. rewrite rebound_last. rewrite decide_True by done.
  f_equal. f_equal.
  destruct (decide (dst_ip a = nat_internal_ip config)) as [->|]; [done|].
  by destruct (decide (dst_ip a = nat_external_ip config)) as [->|].
Qed.

(** X16 on the small network: the next hop's request for the gateway's
    external address, with host A's frame waiting for the next hop. *)
Lemma arp_request_answered_for_own_addresses_only_witness :
  (handle_packet_in Scenario.cfg Scenario.gw_arp_request Scenario.waiting).1 = Normal tt.
Proof.
  destruct (arp_request_answered_for_own_addresses_only Scenario.cfg
              Scenario.gw_arp_request
              {| hwtype := 1; proto := 2048; hlen := 6; plen := 4; opcode := 1;
                 src_mac := "00:00:00:00:01:fe"; src_ip := "203.0.113.254";
                 dst_mac := "00:00:00:00:00:00"; dst_ip := "203.0.113.1" |}
              [] Scenario.waiting eq_refl eq_refl eq_refl)
    as (s' & forward & Hrun & _).
  by rewrite Hrun.
Defined.
